(** * node-auth0: the id_token validating OAuth wrapper and the roles manager

    A shallow embedding of

    - [src/auth/OAUthWithIDTokenValidation.js] (constructor and [create]),
    - the [RolesManager] methods [addPermissions], [removePermissions] and
      [assignUsers],
    - the request encoding and error sanitisation of [Auth0RestClient], whose
      implementation is not part of the sources at hand and is therefore
      modelled from the specification (module [RestClient]).

    JavaScript values are an inductive type; promises are represented by the
    way they settle; the libraries the code calls ([jsonwebtoken], [jwks-rsa],
    [Buffer], the [idToken] validator, the wrapped authenticator) are section
    variables. *)

From stdpp Require Import base strings list gmap.
From Stdlib Require Import ZArith Ascii String DecimalString.

Set Warnings "-register-all".
Local Open Scope string_scope.
Local Open Scope Z_scope.

(** ** JavaScript values *)

Module Js.

(** The values the embedded code inspects.  Numbers are integers: the code
    only tests them for truthiness.  A function is known by its name. *)
Inductive JsVal : Type :=
| JsUndefined
| JsNull
| JsBool (b : bool)
| JsNum (n : Z)
| JsStr (s : string)
| JsArr (items : list JsVal)
| JsObj (fields : list (string * JsVal))
| JsFun (name : string).

(** The kinds of exception the code raises or passes on. *)
Inductive ErrKind : Type :=
| ArgumentError
| TypeError
| JsonWebTokenError
| PlainObject            (* an object literal [{ message: ... }] *)
| OtherError (name : string).

Record JsError : Type := mkError { err_kind : ErrKind; err_message : string }.

(** A computation that either yields a value or throws. *)
Inductive Completion (A : Type) : Type :=
| Normal (a : A)
| Throw (e : JsError).
Arguments Normal {A} a.
Arguments Throw {A} e.

Definition bind {A B} (c : Completion A) (k : A -> Completion B) : Completion B :=
  match c with
  | Normal a => k a
  | Throw e => Throw e
  end.

Notation "x <- c ;; k" := (bind c (fun x => k))
  (at level 100, c at next level, right associativity).

(** [ToBoolean]. *)
Definition truthy (v : JsVal) : bool :=
  match v with
  | JsUndefined | JsNull => false
  | JsBool b => b
  | JsNum n => negb (n =? 0)
  | JsStr s => negb (String.eqb s "")
  | JsArr _ | JsObj _ | JsFun _ => true
  end.

(** [typeof v]. *)
Definition typeof (v : JsVal) : string :=
  match v with
  | JsUndefined => "undefined"
  | JsNull => "object"
  | JsBool _ => "boolean"
  | JsNum _ => "number"
  | JsStr _ => "string"
  | JsArr _ | JsObj _ => "object"
  | JsFun _ => "function"
  end.

(** [a || b]. *)
Definition js_or (a b : JsVal) : JsVal := if truthy a then a else b.

(** [v instanceof Function]. *)
Definition instanceof_Function (v : JsVal) : bool :=
  match v with
  | JsFun _ => true
  | _ => false
  end.

Fixpoint lookup_field (k : string) (fields : list (string * JsVal)) : option JsVal :=
  match fields with
  | [] => None
  | (k', v) :: rest => if String.eqb k k' then Some v else lookup_field k rest
  end.

(** [v.k] where [v] is neither [null] nor [undefined]: an own property of an
    object, [undefined] otherwise (none of the names read by the code is
    a property of a prototype). *)
Definition member (v : JsVal) (k : string) : JsVal :=
  match v with
  | JsObj fields => default JsUndefined (lookup_field k fields)
  | _ => JsUndefined
  end.

Definition nullish_name (v : JsVal) : string :=
  match v with
  | JsNull => "null"
  | _ => "undefined"
  end.

(** [v.k] in general: reading a property of [null] or [undefined] throws. *)
Definition get_member (v : JsVal) (k : string) : Completion JsVal :=
  match v with
  | JsUndefined | JsNull =>
      Throw (mkError TypeError
               ("Cannot read properties of " +:+ nullish_name v +:+
                " (reading '" +:+ k +:+ "')"))
  | _ => Normal (member v k)
  end.

Definition Z_to_string (n : Z) : string := NilZero.string_of_int (Z.to_int n).

Definition join (sep : string) (parts : list string) : string :=
  match parts with
  | [] => ""
  | p :: rest => fold_left (fun acc q => acc +:+ sep +:+ q) rest p
  end.

(** [`${v}`]: the string a template literal puts in place of [v]; an integer
    is written in decimal digits, as JavaScript writes those below 10^21. *)
Fixpoint to_template_string (v : JsVal) : string :=
  match v with
  | JsUndefined => "undefined"
  | JsNull => "null"
  | JsBool true => "true"
  | JsBool false => "false"
  | JsNum n => Z_to_string n
  | JsStr s => s
  | JsArr items =>
      join "," (List.map (fun i => match i with
                                | JsUndefined | JsNull => ""
                                | _ => to_template_string i
                                end) items)
  | JsObj _ => "[object Object]"
  | JsFun name => "function " +:+ name +:+ "() { [native code] }"
  end.

Lemma truthy_not_nullish v k : truthy v = true -> get_member v k = Normal (member v k).
Proof. destruct v; simpl; intros H; try discriminate; reflexivity. Qed.

Lemma js_or_truthy a b : truthy b = true -> truthy (js_or a b) = true.
Proof. intros Hb. unfold js_or. destruct (truthy a) eqn:Ha; assumption. Qed.

End Js.

(** ** RolesManager: permissions and users of a role *)

Module RolesManager.
Import Js.

(** The three REST resources a manager instance holds:
    [this.resource] ([/roles/:id]), [this.permissions]
    ([/roles/:id/permissions]) and [this.users] ([/roles/:id/users]). *)
Inductive SubResource : Type := resource | permissions | users.

Inductive RestMethod : Type := rest_create | rest_get | rest_getAll | rest_patch | rest_delete.

(** A call [this.<target>.<method>(args...)]. *)
Record RestCall : Type := mkCall {
  call_target : SubResource;
  call_method : RestMethod;
  call_args : list JsVal
}.

(** How a manager method ends: it throws, or it returns whatever the one
    sub-resource call it makes returns. *)
Inductive Outcome : Type :=
| Throws (e : JsError)
| Returns (c : RestCall).

Definition of_completion (c : Completion RestCall) : Outcome :=
  match c with
  | Normal call => Returns call
  | Throw e => Throws e
  end.

(** The sub-resource calls made on the way. *)
Definition calls_made (o : Outcome) : list RestCall :=
  match o with
  | Throws _ => []
  | Returns c => [c]
  end.

Definition ROLE_ID_MISSING : string :=
  "The roleId passed in params cannot be null or undefined".
Definition ROLE_ID_NOT_STRING : string := "The role Id has to be a string".

(** The guard shared by the three methods:
    [if (!params.id) throw ...; if (typeof params.id !== 'string') throw ...]. *)
Definition require_role_id (params : JsVal) : Completion unit :=
  id <- get_member params "id" ;;
  if negb (truthy id) then Throw (mkError ArgumentError ROLE_ID_MISSING)
  else
    id' <- get_member params "id" ;;
    if negb (String.eqb (typeof id') "string")
    then Throw (mkError ArgumentError ROLE_ID_NOT_STRING)
    else Normal tt.

Definition addPermissions (params data cb : JsVal) : Outcome :=
  let data := js_or data (JsObj []) in
  let params := js_or params (JsObj []) in
  of_completion (
    _ <- require_role_id params ;;
    if truthy cb && instanceof_Function cb
    then Normal (mkCall permissions rest_create [params; data; cb])
    else Normal (mkCall permissions rest_create [params; data])).

Definition removePermissions (params data cb : JsVal) : Outcome :=
  let data := js_or data (JsObj []) in
  let params := js_or params (JsObj []) in
  of_completion (
    _ <- require_role_id params ;;
    if truthy cb && instanceof_Function cb
    then Normal (mkCall permissions rest_delete [params; data; cb])
    else Normal (mkCall permissions rest_delete [params; data])).

Definition assignUsers (params data cb : JsVal) : Outcome :=
  let data := js_or data (JsObj []) in
  let params := js_or params (JsObj []) in
  of_completion (
    _ <- require_role_id params ;;
    if truthy cb && instanceof_Function cb
    then Normal (mkCall permissions rest_create [params; data; cb])
    else Normal (mkCall users rest_create [params; data])).

(** [params.id] as the methods read it, after [params = params || {}]. *)
Definition role_id (params : JsVal) : JsVal := member (js_or params (JsObj [])) "id".

(** *** Properties *)

Lemma params_or_empty_truthy params : truthy (js_or params (JsObj [])) = true.
Proof. apply js_or_truthy. reflexivity. Qed.

Lemma require_role_id_eq params :
  truthy params = true ->
  require_role_id params =
    if negb (truthy (member params "id"))
    then Throw (mkError ArgumentError ROLE_ID_MISSING)
    else if negb (String.eqb (typeof (member params "id")) "string")
         then Throw (mkError ArgumentError ROLE_ID_NOT_STRING)
         else Normal tt.
Proof.
  intros Ht. unfold require_role_id.
  rewrite (truthy_not_nullish _ _ Ht). simpl.
  destruct (truthy (member params "id")); reflexivity.
Qed.

Lemma require_role_id_rejects params :
  truthy params = true ->
  member params "id" = JsUndefined \/ member params "id" = JsNull \/
    typeof (member params "id") <> "string" ->
  exists msg, require_role_id params = Throw (mkError ArgumentError msg).
Proof.
  intros Ht Hid. rewrite (require_role_id_eq _ Ht).
  destruct Hid as [-> | [-> | Hty]]; simpl; eauto.
  destruct (truthy (member params "id")); simpl; eauto.
  destruct (String.eqb_spec (typeof (member params "id")) "string"); simpl; eauto.
  contradiction.
Qed.

Lemma require_role_id_throws_ArgumentError params e :
  truthy params = true ->
  require_role_id params = Throw e -> err_kind e = ArgumentError.
Proof.
  intros Ht. rewrite (require_role_id_eq _ Ht).
  destruct (negb (truthy (member params "id"))); [intros [= <-]; reflexivity |].
  destruct (negb (String.eqb (typeof (member params "id")) "string"));
    [intros [= <-]; reflexivity | discriminate].
Qed.

Lemma require_role_id_accepts params s :
  member params "id" = JsStr s -> s <> "" ->
  require_role_id params = Normal tt.
Proof.
  intros Hid Hs.
  assert (Ht : truthy params = true).
  { destruct params; simpl in Hid; try discriminate; reflexivity. }
  rewrite (require_role_id_eq _ Ht), Hid. simpl.
  destruct (String.eqb_spec s ""); [contradiction | reflexivity].
Qed.

Lemma role_id_string_params params s :
  role_id params = JsStr s -> js_or params (JsObj []) = params.
Proof.
  unfold role_id, js_or. destruct (truthy params) eqn:Ht; [reflexivity |].
  simpl. discriminate.
Qed.

(** C7.  With a valid (non-empty string) [params.id], [assignUsers] calls
    [create] on the permissions sub-resource when a callback function is
    supplied, and calls [create] on the users sub-resource, returning what it
    returns, when no callback is supplied. *)
Theorem assignUsers_targets (params data cb : JsVal) (s : string) :
  role_id params = JsStr s -> s <> "" ->
  (instanceof_Function cb = true ->
   assignUsers params data cb =
     Returns (mkCall permissions rest_create [params; js_or data (JsObj []); cb])) /\
  (cb = JsUndefined ->
   assignUsers params data cb =
     Returns (mkCall users rest_create [params; js_or data (JsObj [])])).
Proof.
  intros Hid Hs.
  pose proof (role_id_string_params _ _ Hid) as Hp.
  unfold role_id in Hid. rewrite Hp in Hid.
  unfold assignUsers. rewrite Hp, (require_role_id_accepts _ _ Hid Hs). simpl.
  split.
  - intros Hf. destruct cb; try discriminate. reflexivity.
  - intros ->. reflexivity.
Qed.

Lemma assignUsers_targets_witness :
  let params := JsObj [("id", JsStr "rol_1")] in
  let data := JsObj [("users", JsArr [JsStr "auth0|u1"; JsStr "auth0|u2"])] in
  assignUsers params data (JsFun "done") =
    Returns (mkCall permissions rest_create [params; data; JsFun "done"]) /\
  assignUsers params data JsUndefined =
    Returns (mkCall users rest_create [params; data]).
Proof.
  intros params data. split.
  - apply (assignUsers_targets params data (JsFun "done") "rol_1");
      [reflexivity | discriminate | reflexivity].
  - apply (assignUsers_targets params data JsUndefined "rol_1");
      [reflexivity | discriminate | reflexivity].
Defined.

(** C9.  When [params.id] is [null], [undefined] or not a string,
    [addPermissions], [removePermissions] and [assignUsers] throw an
    [ArgumentError] at call entry, whatever the callback, and make no
    sub-resource call. *)
Theorem invalid_role_id_throws (params data cb : JsVal) :
  role_id params = JsUndefined \/ role_id params = JsNull \/
    typeof (role_id params) <> "string" ->
  forall op, In op [addPermissions; removePermissions; assignUsers] ->
  (exists msg, op params data cb = Throws (mkError ArgumentError msg)) /\
  calls_made (op params data cb) = [].
Proof.
  intros Hid op Hop.
  destruct (require_role_id_rejects _ (params_or_empty_truthy params) Hid) as [msg Hmsg].
  assert (Hthrow : op params data cb = Throws (mkError ArgumentError msg)).
  { simpl in Hop. destruct Hop as [<- | [<- | [<- | []]]];
      unfold addPermissions, removePermissions, assignUsers;
      rewrite Hmsg; reflexivity. }
  rewrite Hthrow. split; [eauto | reflexivity].
Qed.

Lemma invalid_role_id_throws_witness :
  (exists msg, assignUsers (JsObj [("id", JsNum 42)]) JsUndefined (JsFun "done") =
                 Throws (mkError ArgumentError msg)) /\
  calls_made (assignUsers (JsObj [("id", JsNum 42)]) JsUndefined (JsFun "done")) = [].
Proof.
  apply (invalid_role_id_throws (JsObj [("id", JsNum 42)]) JsUndefined (JsFun "done")).
  - right; right. discriminate.
  - simpl. auto.
Defined.

End RolesManager.

(** ** OAUthWithIDTokenValidation: token exchange with id_token validation *)

Module OAuthWithIDTokenValidation.
Import Js.

Definition HS256_IGNORE_VALIDATION_MESSAGE : string :=
  "Validation of `id_token` requires a `clientSecret` when using the HS256 algorithm. To ensure tokens are validated, please switch the signing algorithm to RS256 or provide a `clientSecret` in the constructor.".

(** [hay.includes(needle)]. *)
Fixpoint includes (hay needle : string) : bool :=
  String.prefix needle hay ||
  match hay with
  | EmptyString => false
  | String _ rest => includes rest needle
  end.

(** The value of the [jwks-rsa] module, the default client factory. *)
Definition jwksClient : JsVal := JsFun "jwksClient".

(** A JWKS client, known by the factory that made it and the [jwksUri] it was
    given. *)
Record JwksClient : Type := mkJwksClient {
  jwks_factory : JsVal;
  jwksUri : string
}.

(** [factory({ jwksUri })].  Calling something that is not a function throws;
    a factory function returns the client it builds. *)
Definition call_factory (factory : JsVal) (uri : string) : Completion JwksClient :=
  if instanceof_Function factory then Normal (mkJwksClient factory uri)
  else Throw (mkError TypeError "(intermediate value)(intermediate value) is not a function").

(** The fields the constructor sets on [this]. *)
Record Instance : Type := mkInstance {
  oauth : JsVal;
  __bypassIdTokenValidation : JsVal;
  clientId : JsVal;
  clientSecret : JsVal;
  domain : JsVal;
  supportedAlgorithms : JsVal;
  _jwksClient : JwksClient
}.

Definition DEFAULT_ALGORITHMS : JsVal := JsArr [JsStr "HS256"; JsStr "RS256"].

(** [new OAUthWithIDTokenValidation(oauth, options)]. *)
Definition construct (oauth options : JsVal) : Completion Instance :=
  if negb (truthy oauth) then
    Throw (mkError ArgumentError "Missing OAuthAuthenticator param")
  else if negb (truthy options) then
    Throw (mkError ArgumentError "Missing authenticator options")
  else if negb (String.eqb (typeof options) "object") then
    Throw (mkError ArgumentError "The authenticator options must be an object")
  else
    client <- call_factory (js_or (member options "jwksClient") jwksClient)
                ("https://" +:+ to_template_string (member options "domain") +:+
                 "/.well-known/jwks.json") ;;
    Normal {| oauth := oauth;
              __bypassIdTokenValidation := member options "__bypassIdTokenValidation";
              clientId := member options "clientId";
              clientSecret := member options "clientSecret";
              domain := member options "domain";
              supportedAlgorithms :=
                js_or (member options "supportedAlgorithms") DEFAULT_ALGORITHMS;
              _jwksClient := client |}.

(** The [options] object handed to [jwt.verify] and to the claims validator. *)
Record VerificationOptions : Type := mkOptions {
  algorithms : JsVal;
  audience : JsVal;
  issuer : string;
  organization : option JsVal;
  nonce : option JsVal;
  maxAge : option JsVal
}.

(** [if (data.k) options.k = data.k]. *)
Definition when_truthy (v : JsVal) : option JsVal := if truthy v then Some v else None.

Definition verification_options (self : Instance) (data : JsVal)
  : Completion VerificationOptions :=
  org <- get_member data "organization" ;;
  non <- get_member data "nonce" ;;
  age <- get_member data "maxAge" ;;
  Normal {| algorithms := supportedAlgorithms self;
            audience := clientId self;
            issuer := "https://" +:+ to_template_string (domain self) +:+ "/";
            organization := when_truthy org;
            nonce := when_truthy non;
            maxAge := when_truthy age |}.

(** What [getKey] hands to its callback when it has a key. *)
Inductive KeyMaterial : Type :=
| SecretBuffer (secret : JsVal)   (* Buffer.from(clientSecret, 'base64') *)
| SigningKey (key : JsVal).       (* key.publicKey || key.rsaPublicKey *)

(** How a promise settles. *)
Inductive Settled : Type :=
| Resolved (r : JsVal)
| Rejected (e : JsError).

(** What [create] does besides settling: calls to the verifier and the
    validator, and console warnings, in order. *)
Inductive Event : Type :=
| Verified (token : JsVal) (options : VerificationOptions)
| Warned (msg : string)
| Validated (token : JsVal) (options : VerificationOptions).

(** The arguments of one callback invocation: [cb(null, r)] or [cb(e)]. *)
Inductive CbArgs : Type :=
| CbSuccess (r : JsVal)
| CbFailure (e : JsError).

Inductive Returned : Type :=
| ReturnsPromise (p : Settled)
| ReturnsUndefined.

Record CallResult : Type := mkResult {
  returned : Returned;
  callback_calls : list CbArgs;
  events : list Event
}.

(** The error [jsonwebtoken] reports when the key callback fails with [e]. *)
Definition key_callback_error (e : JsError) : JsError :=
  mkError JsonWebTokenError
    ("error in secret or public key callback: " +:+ err_message e).

(** [err.message && err.message.includes(HS256_IGNORE_VALIDATION_MESSAGE)]. *)
Definition hs256_secret_missing (err : JsError) : bool :=
  negb (String.eqb (err_message err) "") &&
  includes (err_message err) HS256_IGNORE_VALIDATION_MESSAGE.

Definition settle_args (p : Settled) : CbArgs :=
  match p with
  | Resolved r => CbSuccess r
  | Rejected e => CbFailure e
  end.

(** *** Test doubles

    Stand-ins for the collaborators, in the manner of the stubs of the test
    suite.  A token is a string [<alg>.<claims>.<signature>]. *)

Module Doubles.

(** The decoded header of a token. *)
Definition header_of (token : JsVal) : JsVal :=
  match token with
  | JsStr s =>
      JsObj [("alg", JsStr (if String.prefix "HS256." s then "HS256" else "RS256"));
             ("kid", JsStr "key-1")]
  | _ => JsObj []
  end.

Definition token_includes (token : JsVal) (part : string) : bool :=
  match token with
  | JsStr s => includes s part
  | _ => false
  end.

(** A key set holding the single key [key-1]. *)
Definition getSigningKey (client : JwksClient) (kid : JsVal) : JsError + JsVal :=
  match kid with
  | JsStr "key-1" => inr (JsObj [("publicKey", JsStr "-----BEGIN PUBLIC KEY-----")])
  | _ => inl (mkError (OtherError "SigningKeyNotFoundError")
                "Unable to find a signing key that matches")
  end.

(** [Buffer.from(v, 'base64')] takes strings and arrays and refuses the
    other values. *)
Definition Buffer_from_throws (v : JsVal) : option JsError :=
  match v with
  | JsStr _ | JsArr _ => None
  | _ => Some (mkError TypeError
                 "The first argument must be of type string or an instance of Buffer, ArrayBuffer, or Array or an Array-like Object.")
  end.

(** Asks the key callback for the key of the token's header, lets its
    exception through, reports its failure as [jsonwebtoken] does, and
    rejects a signature spelled [forged]. *)
Definition jwt_verify (token : JsVal)
    (getKey : JsVal -> Completion (JsError + KeyMaterial))
    (options : VerificationOptions) : Completion (option JsError) :=
  match getKey (header_of token) with
  | Throw thrown => Throw thrown
  | Normal (inl e) => Normal (Some (key_callback_error e))
  | Normal (inr _) =>
      if token_includes token ".forged"
      then Normal (Some (mkError JsonWebTokenError "invalid signature"))
      else Normal None
  end.

(** Rejects claims spelled [expired]. *)
Definition validateIdToken (token : JsVal) (options : VerificationOptions)
  : option JsError :=
  if token_includes token ".expired."
  then Some (mkError (OtherError "Error")
               "Expiration Time (exp) claim error in the ID token")
  else None.

(** An authenticator that resolves with its canned [response], or rejects
    when it has none. *)
Definition oauth_create (oauth params data : JsVal) : Settled :=
  match member oauth "response" with
  | JsUndefined => Rejected (mkError (OtherError "Error") "Request failed")
  | r => Resolved r
  end.

(** Callbacks return normally, except the one named [thrower]. *)
Definition run_callback (name : string) (args : CbArgs) : option JsError :=
  if String.eqb name "thrower"
  then Some (mkError (OtherError "Error") "callback failed")
  else None.

Definition authenticator (response : JsVal) : JsVal := JsObj [("response", response)].

Definition id_token_response (token : string) : JsVal :=
  JsObj [("access_token", JsStr "at-1"); ("id_token", JsStr token)].

(** An instance for [tenant.auth0.com] with no client secret. *)
Definition instance_without_secret (response : JsVal) : Instance :=
  {| oauth := authenticator response;
     __bypassIdTokenValidation := JsUndefined;
     clientId := JsStr "client-1";
     clientSecret := JsUndefined;
     domain := JsStr "tenant.auth0.com";
     supportedAlgorithms := DEFAULT_ALGORITHMS;
     _jwksClient :=
       mkJwksClient jwksClient "https://tenant.auth0.com/.well-known/jwks.json" |}.

Definition options_without_secret : JsVal :=
  JsObj [("domain", JsStr "tenant.auth0.com"); ("clientId", JsStr "client-1")].

(** The options built for [instance_without_secret] and empty request
    data. *)
Definition plain_options : VerificationOptions :=
  {| algorithms := DEFAULT_ALGORITHMS;
     audience := JsStr "client-1";
     issuer := "https://tenant.auth0.com/";
     organization := None;
     nonce := None;
     maxAge := None |}.





Definition expired : JsError :=
  mkError (OtherError "Error") "Expiration Time (exp) claim error in the ID token".

(** Request data with a nonce and a zero [maxAge]. *)
Definition nonce_and_zero_maxAge : JsVal :=
  JsObj [("nonce", JsStr "n-1"); ("maxAge", JsNum 0)].

Definition nonce_options : VerificationOptions :=
  {| algorithms := DEFAULT_ALGORITHMS;
     audience := JsStr "client-1";
     issuer := "https://tenant.auth0.com/";
     organization := None;
     nonce := Some (JsStr "n-1");
     maxAge := None |}.

End Doubles.

Section Create.

(** The collaborators.
    - [getSigningKey client kid]: the [(err, key)] the JWKS client calls back
      with;
    - [Buffer_from_throws v]: the exception [Buffer.from(v, 'base64')]
      throws, if any;
    - [jwt_verify token getKey options]: what [jwt.verify] does, given the
      key callback: it throws, or it calls back once, with an [err] or
      without;
    - [validateIdToken token options]: the error the claims validator of
      [./idToken] throws, if any;
    - [oauth_create oauth params data]: how the promise of the wrapped
      authenticator's [create] settles;
    - [run_callback name args]: the exception the caller's callback [name]
      throws when invoked with [args], if any. *)
Variable getSigningKey : JwksClient -> JsVal -> JsError + JsVal.
Variable Buffer_from_throws : JsVal -> option JsError.
Variable jwt_verify :
  JsVal -> (JsVal -> Completion (JsError + KeyMaterial)) -> VerificationOptions ->
  Completion (option JsError).
Variable validateIdToken : JsVal -> VerificationOptions -> option JsError.
Variable oauth_create : JsVal -> JsVal -> JsVal -> Settled.
Variable run_callback : string -> CbArgs -> option JsError.

(** The [getKey] closure of [create]: it calls back with an error
    ([Normal (inl err)]) or with a key ([Normal (inr key)]), or it throws
    without calling back, when [Buffer.from] refuses the client secret or the
    JWKS client hands over no error and a key that is [null] or
    [undefined]. *)
Definition getKey (self : Instance) (header : JsVal)
  : Completion (JsError + KeyMaterial) :=
  match member header "alg" with
  | JsStr "HS256" =>
      if negb (truthy (clientSecret self))
      then Normal (inl (mkError PlainObject HS256_IGNORE_VALIDATION_MESSAGE))
      else
        match Buffer_from_throws (clientSecret self) with
        | Some thrown => Throw thrown
        | None => Normal (inr (SecretBuffer (clientSecret self)))
        end
  | _ =>
      match getSigningKey (_jwksClient self) (member header "kid") with
      | inl err => Normal (inl err)
      | inr key =>
          publicKey <- get_member key "publicKey" ;;
          if truthy publicKey then Normal (inr (SigningKey publicKey))
          else
            rsaPublicKey <- get_member key "rsaPublicKey" ;;
            Normal (inr (SigningKey rsaPublicKey))
      end
  end.

(** The part of the [jwt.verify] callback after the error test:
    [try { validateIdToken(...) } catch (e) { return rej(e) } return res(r)]. *)
Definition validate_then_resolve (r token : JsVal) (options : VerificationOptions)
  : Settled * list Event :=
  (match validateIdToken token options with
   | Some idTokenError => Rejected idTokenError
   | None => Resolved r
   end,
   [Validated token options]).

(** The body of the [then] callback of [createAndValidate].  An exception
    thrown in the executor of the promise, by a property read or by
    [jwt.verify], rejects the promise. *)
Definition validate_response (self : Instance) (data r : JsVal) : Settled * list Event :=
  if truthy (__bypassIdTokenValidation self) then (Resolved r, [])
  else
    match get_member r "id_token" with
    | Throw e => (Rejected e, [])
    | Normal token =>
        if truthy token then
          match verification_options self data with
          | Throw e => (Rejected e, [])
          | Normal options =>
              match jwt_verify token (getKey self) options with
              | Throw thrown => (Rejected thrown, [Verified token options])
              | Normal (Some err) =>
                  if hs256_secret_missing err then
                    let (p, evs) := validate_then_resolve r token options in
                    (p, Verified token options
                          :: Warned HS256_IGNORE_VALIDATION_MESSAGE :: evs)
                  else (Rejected err, [Verified token options])
              | Normal None =>
                  let (p, evs) := validate_then_resolve r token options in
                  (p, Verified token options :: evs)
              end
          end
        else (Resolved r, [])
    end.

(** [this.oauth.create(params, data).then(...)]. *)
Definition createAndValidate (self : Instance) (params data : JsVal)
  : Settled * list Event :=
  match oauth_create (oauth self) params data with
  | Resolved r => validate_response self data r
  | Rejected e => (Rejected e, [])
  end.

(** [cb(args)]: the invocations that take place and the exception thrown. *)
Definition invoke (cb : JsVal) (args : CbArgs) : list CbArgs * option JsError :=
  match cb with
  | JsFun name => ([args], run_callback name args)
  | _ => ([], Some (mkError TypeError "cb is not a function"))
  end.

(** [createAndValidate.then((r) => cb(null, r)).catch((e) => cb(e))]. *)
Definition report (cb : JsVal) (p : Settled) : list CbArgs :=
  match p with
  | Resolved r =>
      match invoke cb (CbSuccess r) with
      | (calls, None) => calls
      | (calls, Some thrown) => calls ++ fst (invoke cb (CbFailure thrown))
      end
  | Rejected e => fst (invoke cb (CbFailure e))
  end.

(** [OAUthWithIDTokenValidation.prototype.create]. *)
Definition create (self : Instance) (params data cb : JsVal) : CallResult :=
  let (p, evs) := createAndValidate self params data in
  if negb (truthy cb) then
    {| returned := ReturnsPromise p; callback_calls := []; events := evs |}
  else
    {| returned := ReturnsUndefined; callback_calls := report cb p; events := evs |}.

(** *** Properties of [create] *)

Lemma create_no_callback self params data cb :
  truthy cb = false ->
  create self params data cb =
    {| returned := ReturnsPromise (fst (createAndValidate self params data));
       callback_calls := [];
       events := snd (createAndValidate self params data) |}.
Proof.
  intros Hcb. unfold create.
  destruct (createAndValidate self params data) as [p evs].
  rewrite Hcb. reflexivity.
Qed.

Lemma create_with_function self params data name :
  create self params data (JsFun name) =
    {| returned := ReturnsUndefined;
       callback_calls := report (JsFun name) (fst (createAndValidate self params data));
       events := snd (createAndValidate self params data) |}.
Proof.
  unfold create. destruct (createAndValidate self params data) as [p evs]. reflexivity.
Qed.

Lemma report_rejected name e : report (JsFun name) (Rejected e) = [CbFailure e].
Proof. reflexivity. Qed.

Lemma report_resolved name r :
  run_callback name (CbSuccess r) = None ->
  report (JsFun name) (Resolved r) = [CbSuccess r].
Proof. intros H. simpl. rewrite H. reflexivity. Qed.

(** Every call to the verifier or the validator made by [createAndValidate]
    carries the options built by [verification_options]. *)
Lemma events_carry_options self params data ev :
  In ev (snd (createAndValidate self params data)) ->
  exists token options,
    verification_options self data = Normal options /\
    (ev = Verified token options \/ ev = Warned HS256_IGNORE_VALIDATION_MESSAGE \/
     ev = Validated token options).
Proof.
  unfold createAndValidate.
  destruct (oauth_create (oauth self) params data) as [r | e]; [| intros []].
  unfold validate_response.
  destruct (truthy (__bypassIdTokenValidation self)); [intros [] |].
  destruct (get_member r "id_token") as [token | e]; [| intros []].
  destruct (truthy token); [| intros []].
  destruct (verification_options self data) as [options | e]; [| intros []].
  unfold validate_then_resolve.
  destruct (jwt_verify token (getKey self) options) as [[err |] | thrown].
  - destruct (hs256_secret_missing err); simpl; intros H;
      exists token, options; split; try reflexivity; intuition (subst; auto).
  - simpl. intros H. exists token, options. split; [reflexivity |].
    intuition (subst; auto).
  - simpl. intros H. exists token, options. split; [reflexivity |].
    intuition (subst; auto).
Qed.

Lemma getKey_hs256_without_secret self header :
  member header "alg" = JsStr "HS256" ->
  truthy (clientSecret self) = false ->
  getKey self header =
    Normal (inl (mkError PlainObject HS256_IGNORE_VALIDATION_MESSAGE)).
Proof. intros Halg Hsecret. unfold getKey. rewrite Halg, Hsecret. reflexivity. Qed.

Lemma key_callback_error_is_warning :
  hs256_secret_missing
    (key_callback_error (mkError PlainObject HS256_IGNORE_VALIDATION_MESSAGE)) = true.
Proof. vm_compute. reflexivity. Qed.

Lemma validate_response_verifying self data r token options :
  truthy (__bypassIdTokenValidation self) = false ->
  get_member r "id_token" = Normal token ->
  truthy token = true ->
  verification_options self data = Normal options ->
  validate_response self data r =
    match jwt_verify token (getKey self) options with
    | Throw thrown => (Rejected thrown, [Verified token options])
    | Normal (Some err) =>
        if hs256_secret_missing err then
          (fst (validate_then_resolve r token options),
           [Verified token options; Warned HS256_IGNORE_VALIDATION_MESSAGE;
            Validated token options])
        else (Rejected err, [Verified token options])
    | Normal None =>
        (fst (validate_then_resolve r token options),
         [Verified token options; Validated token options])
    end.
Proof.
  intros Hbypass Htoken Htruthy Hoptions. unfold validate_response.
  rewrite Hbypass, Htoken, Htruthy, Hoptions. reflexivity.
Qed.


(** C2, as the code has it.  For an HS256 identity token and no client
    secret, the failure of the key callback that [jwt.verify] reports is
    logged as a warning and does not reject; the claims validator still runs,
    and the call resolves with the response exactly when the validator
    accepts the token, rejecting with the validator's error otherwise. *)
Theorem hs256_without_secret_warns self params data r token options header :
  oauth_create (oauth self) params data = Resolved r ->
  truthy (__bypassIdTokenValidation self) = false ->
  get_member r "id_token" = Normal token ->
  truthy token = true ->
  verification_options self data = Normal options ->
  member header "alg" = JsStr "HS256" ->
  truthy (clientSecret self) = false ->
  (forall e, getKey self header = Normal (inl e) ->
             jwt_verify token (getKey self) options =
               Normal (Some (key_callback_error e))) ->
  createAndValidate self params data =
    (match validateIdToken token options with
     | Some idTokenError => Rejected idTokenError
     | None => Resolved r
     end,
     [Verified token options; Warned HS256_IGNORE_VALIDATION_MESSAGE;
      Validated token options]).
Proof.
  intros Hexchange Hbypass Htoken Htruthy Hoptions Halg Hsecret Hverify.
  unfold createAndValidate. rewrite Hexchange.
  rewrite (validate_response_verifying _ _ _ _ _ Hbypass Htoken Htruthy Hoptions).
  rewrite (Hverify _ (getKey_hs256_without_secret _ _ Halg Hsecret)).
  rewrite key_callback_error_is_warning. reflexivity.
Qed.

(** C4.  When the exchange succeeds and the bypass flag is set, or the
    response has no identity token, the response is handed back unchanged and
    neither the verifier nor the validator is called. *)
Theorem passthrough_without_verification self params data r :
  oauth_create (oauth self) params data = Resolved r ->
  truthy (__bypassIdTokenValidation self) = true \/
  (exists token, get_member r "id_token" = Normal token /\ truthy token = false) ->
  createAndValidate self params data = (Resolved r, []) /\
  (forall cb, truthy cb = false ->
     create self params data cb =
       {| returned := ReturnsPromise (Resolved r); callback_calls := []; events := [] |}) /\
  (forall name, run_callback name (CbSuccess r) = None ->
     create self params data (JsFun name) =
       {| returned := ReturnsUndefined; callback_calls := [CbSuccess r]; events := [] |}).
Proof.
  intros Hexchange Hskip.
  assert (Hpass : createAndValidate self params data = (Resolved r, [])).
  { unfold createAndValidate, validate_response. rewrite Hexchange.
    destruct Hskip as [-> | (token & Htoken & Hfalsy)]; [reflexivity |].
    destruct (truthy (__bypassIdTokenValidation self)); [reflexivity |].
    rewrite Htoken, Hfalsy. reflexivity. }
  split; [exact Hpass |]. split.
  - intros cb Hcb. rewrite (create_no_callback _ _ _ _ Hcb), Hpass. reflexivity.
  - intros name Hret. rewrite create_with_function, Hpass. simpl.
    rewrite Hret. reflexivity.
Qed.

Lemma construct_fields oauth0 options self :
  construct oauth0 options = Normal self ->
  oauth self = oauth0 /\
  clientId self = member options "clientId" /\
  domain self = member options "domain" /\
  supportedAlgorithms self =
    js_or (member options "supportedAlgorithms") DEFAULT_ALGORITHMS /\
  jwksUri (_jwksClient self) =
    "https://" +:+ to_template_string (member options "domain") +:+
    "/.well-known/jwks.json".
Proof.
  unfold construct, call_factory.
  destruct (truthy oauth0); simpl; [| discriminate].
  destruct (truthy options); simpl; [| discriminate].
  destruct (String.eqb (typeof options) "object"); simpl; [| discriminate].
  destruct (instanceof_Function (js_or (member options "jwksClient") jwksClient));
    simpl; [| discriminate].
  intros [= <-]. simpl. repeat split; reflexivity.
Qed.

Lemma verification_options_fields self data options :
  verification_options self data = Normal options ->
  algorithms options = supportedAlgorithms self /\
  audience options = clientId self /\
  issuer options = "https://" +:+ to_template_string (domain self) +:+ "/" /\
  organization options = when_truthy (member data "organization") /\
  nonce options = when_truthy (member data "nonce") /\
  maxAge options = when_truthy (member data "maxAge").
Proof.
  unfold verification_options, get_member.
  destruct data; simpl; try discriminate; intros [= <-]; simpl;
    repeat split; reflexivity.
Qed.

Lemma verification_event_options self params data token opts :
  In (Verified token opts) (snd (createAndValidate self params data)) \/
  In (Validated token opts) (snd (createAndValidate self params data)) ->
  verification_options self data = Normal opts.
Proof.
  intros [Hev | Hev];
    destruct (events_carry_options _ _ _ _ Hev) as (t & o & Ho & [He | [He | He]]);
    try discriminate; injection He as <- <-; exact Ho.
Qed.

(** C5, as the code has it.  The options of every call to the verifier and to
    the validator have [issuer] equal to [https://<domain>/], [audience]
    equal to the configured client id and [algorithms] equal to the configured
    list, which is [['HS256', 'RS256']] when none was given to the
    constructor; and each of [organization], [nonce] and [maxAge] is included,
    with the value of the request data, exactly when that value is truthy. *)
Theorem verification_options_content oauth0 options self params data token opts :
  construct oauth0 options = Normal self ->
  In (Verified token opts) (snd (createAndValidate self params data)) \/
  In (Validated token opts) (snd (createAndValidate self params data)) ->
  issuer opts = "https://" +:+ to_template_string (member options "domain") +:+ "/" /\
  audience opts = member options "clientId" /\
  algorithms opts =
    (if truthy (member options "supportedAlgorithms")
     then member options "supportedAlgorithms"
     else JsArr [JsStr "HS256"; JsStr "RS256"]) /\
  organization opts =
    (if truthy (member data "organization")
     then Some (member data "organization") else None) /\
  nonce opts =
    (if truthy (member data "nonce") then Some (member data "nonce") else None) /\
  maxAge opts =
    (if truthy (member data "maxAge") then Some (member data "maxAge") else None).
Proof.
  intros Hnew Hev.
  destruct (construct_fields _ _ _ Hnew) as (_ & Hid & Hdom & Halgs & _).
  pose proof (verification_event_options _ _ _ _ _ Hev) as Hopts.
  destruct (verification_options_fields _ _ _ Hopts)
    as (Ha & Hau & Hi & Ho & Hn & Hm).
  rewrite Hi, Hau, Ha, Ho, Hn, Hm, Hid, Hdom, Halgs.
  repeat split; reflexivity.
Qed.

(** C10.  The constructor does not check [options.domain]: for an options
    object without a [domain] (and a usable authenticator and key-set
    factory) construction succeeds, the JWKS client is given the URL
    [https://undefined/.well-known/jwks.json], and every verification uses
    the issuer [https://undefined/]. *)
Theorem missing_domain_not_validated oauth0 fields :
  truthy oauth0 = true ->
  lookup_field "domain" fields = None ->
  instanceof_Function (js_or (member (JsObj fields) "jwksClient") jwksClient) = true ->
  exists self,
    construct oauth0 (JsObj fields) = Normal self /\
    jwksUri (_jwksClient self) = "https://undefined/.well-known/jwks.json" /\
    forall params data token opts,
      In (Verified token opts) (snd (createAndValidate self params data)) \/
      In (Validated token opts) (snd (createAndValidate self params data)) ->
      issuer opts = "https://undefined/".
Proof.
  intros Hoauth Hdomain Hfactory.
  assert (Hmember : member (JsObj fields) "domain" = JsUndefined).
  { simpl. rewrite Hdomain. reflexivity. }
  destruct (construct oauth0 (JsObj fields)) as [self | e] eqn:Hnew.
  - exists self. split; [reflexivity |].
    destruct (construct_fields _ _ _ Hnew) as (_ & _ & _ & _ & Huri).
    split.
    + rewrite Huri, Hmember. reflexivity.
    + intros params data token opts Hev.
      destruct (construct_fields _ _ _ Hnew) as (_ & _ & Hdom & _).
      pose proof (verification_event_options _ _ _ _ _ Hev) as Hopts.
      destruct (verification_options_fields _ _ _ Hopts) as (_ & _ & Hissuer & _).
      rewrite Hissuer, Hdom, Hmember. reflexivity.
  - exfalso. revert Hnew. unfold construct, call_factory.
    rewrite Hoauth, Hfactory. simpl. discriminate.
Qed.

(** C8, as the code has it.  Without a callback [create] returns the promise
    of the exchange-and-validate chain and invokes no callback; with a
    callback function that returns normally it returns [undefined] and invokes
    the callback exactly once, with the value or the error that promise
    settles with.  [addPermissions] and [removePermissions] of the roles
    manager behave alike in both forms: either both throw the same
    [ArgumentError] at call entry, or both return the same sub-resource call,
    the callback added to its arguments. *)
Theorem dual_mode_reporting self params data :
  (forall cb, truthy cb = false ->
     returned (create self params data cb) =
       ReturnsPromise (fst (createAndValidate self params data)) /\
     callback_calls (create self params data cb) = []) /\
  (forall name,
     run_callback name (settle_args (fst (createAndValidate self params data))) = None ->
     returned (create self params data (JsFun name)) = ReturnsUndefined /\
     callback_calls (create self params data (JsFun name)) =
       [settle_args (fst (createAndValidate self params data))]) /\
  (forall op rparams rdata name,
     In op [RolesManager.addPermissions; RolesManager.removePermissions] ->
     (exists e, err_kind e = ArgumentError /\
                op rparams rdata JsUndefined = RolesManager.Throws e /\
                op rparams rdata (JsFun name) = RolesManager.Throws e) \/
     (exists target method args,
        op rparams rdata JsUndefined =
          RolesManager.Returns (RolesManager.mkCall target method args) /\
        op rparams rdata (JsFun name) =
          RolesManager.Returns (RolesManager.mkCall target method (args ++ [JsFun name])))).
Proof.
  split; [| split].
  - intros cb Hcb. rewrite (create_no_callback _ _ _ _ Hcb). split; reflexivity.
  - intros name Hret. rewrite create_with_function. split; [reflexivity |].
    simpl. destruct (fst (createAndValidate self params data)) as [r | e]; simpl in *.
    + rewrite Hret. reflexivity.
    + reflexivity.
  - intros op rparams rdata name Hop.
    pose proof (RolesManager.params_or_empty_truthy rparams) as Ht.
    destruct (RolesManager.require_role_id (js_or rparams (JsObj []))) as [[] | e] eqn:Hguard.
    + right. simpl in Hop. destruct Hop as [<- | [<- | []]];
        unfold RolesManager.addPermissions, RolesManager.removePermissions;
        rewrite Hguard; simpl; eauto.
    + left. exists e. split.
      * exact (RolesManager.require_role_id_throws_ArgumentError _ _ Ht Hguard).
      * simpl in Hop. destruct Hop as [<- | [<- | []]];
          unfold RolesManager.addPermissions, RolesManager.removePermissions;
          rewrite Hguard; simpl; split; reflexivity.
Qed.

End Create.

(** *** The properties on the test doubles *)

Local Abbreviation stub_createAndValidate :=
  (createAndValidate Doubles.getSigningKey Doubles.Buffer_from_throws Doubles.jwt_verify
           Doubles.validateIdToken
     Doubles.oauth_create).
Local Abbreviation stub_create :=
  (create Doubles.getSigningKey Doubles.Buffer_from_throws Doubles.jwt_verify
           Doubles.validateIdToken
     Doubles.oauth_create Doubles.run_callback).



(** An HS256 token with acceptable claims and no client secret: a warning,
    then the response. *)
Lemma hs256_without_secret_warns_witness :
  let r := Doubles.id_token_response "HS256.ok.sig" in
  stub_createAndValidate (Doubles.instance_without_secret r) JsUndefined (JsObj []) =
    (Resolved r,
     [Verified (JsStr "HS256.ok.sig") Doubles.plain_options;
      Warned HS256_IGNORE_VALIDATION_MESSAGE;
      Validated (JsStr "HS256.ok.sig") Doubles.plain_options]).
Proof.
  intros r.
  apply (hs256_without_secret_warns
           Doubles.getSigningKey Doubles.Buffer_from_throws Doubles.jwt_verify
           Doubles.validateIdToken
           Doubles.oauth_create
           (Doubles.instance_without_secret r) JsUndefined (JsObj []) r
           (JsStr "HS256.ok.sig") Doubles.plain_options
           (Doubles.header_of (JsStr "HS256.ok.sig")));
    try reflexivity.
  intros e He. vm_compute in He. injection He as <-. reflexivity.
Defined.

(** C2 does not hold as stated: an HS256 token, no client secret, and claims
    the validator refuses; the call is rejected. *)
Lemma hs256_without_secret_may_reject :
  let r := Doubles.id_token_response "HS256.expired.sig" in
  let self := Doubles.instance_without_secret r in
  Doubles.oauth_create (oauth self) JsUndefined (JsObj []) = Resolved r /\
  member (Doubles.header_of (member r "id_token")) "alg" = JsStr "HS256" /\
  truthy (clientSecret self) = false /\
  stub_create self JsUndefined (JsObj []) JsUndefined =
    {| returned := ReturnsPromise (Rejected Doubles.expired);
       callback_calls := [];
       events := [Verified (JsStr "HS256.expired.sig") Doubles.plain_options;
                  Warned HS256_IGNORE_VALIDATION_MESSAGE;
                  Validated (JsStr "HS256.expired.sig") Doubles.plain_options] |}.
Proof. repeat split. Qed.

(** A response without an identity token passes through. *)
Lemma passthrough_without_verification_witness :
  let r := JsObj [("access_token", JsStr "at-1")] in
  let self := Doubles.instance_without_secret r in
  stub_createAndValidate self JsUndefined (JsObj []) = (Resolved r, []) /\
  (forall cb, truthy cb = false ->
     stub_create self JsUndefined (JsObj []) cb =
       {| returned := ReturnsPromise (Resolved r); callback_calls := []; events := [] |}) /\
  (forall name, Doubles.run_callback name (CbSuccess r) = None ->
     stub_create self JsUndefined (JsObj []) (JsFun name) =
       {| returned := ReturnsUndefined; callback_calls := [CbSuccess r]; events := [] |}).
Proof.
  intros r self.
  apply (passthrough_without_verification
           Doubles.getSigningKey Doubles.Buffer_from_throws Doubles.jwt_verify
           Doubles.validateIdToken
           Doubles.oauth_create Doubles.run_callback self JsUndefined (JsObj []) r).
  - reflexivity.
  - right. exists JsUndefined. split; reflexivity.
Defined.

Lemma verification_options_content_witness :
  issuer Doubles.nonce_options = "https://tenant.auth0.com/" /\
  audience Doubles.nonce_options = JsStr "client-1" /\
  algorithms Doubles.nonce_options = JsArr [JsStr "HS256"; JsStr "RS256"] /\
  organization Doubles.nonce_options = None /\
  nonce Doubles.nonce_options = Some (JsStr "n-1") /\
  maxAge Doubles.nonce_options = None.
Proof.
  apply (verification_options_content
           Doubles.getSigningKey Doubles.Buffer_from_throws Doubles.jwt_verify
           Doubles.validateIdToken
           Doubles.oauth_create
           (Doubles.authenticator (Doubles.id_token_response "RS256.ok.sig"))
           Doubles.options_without_secret
           (Doubles.instance_without_secret (Doubles.id_token_response "RS256.ok.sig"))
           JsUndefined Doubles.nonce_and_zero_maxAge (JsStr "RS256.ok.sig") Doubles.nonce_options).
  - reflexivity.
  - left. simpl. left. reflexivity.
Defined.

(** C5 does not hold as stated: [maxAge] is a field of the request data, with
    the value [0], and the options of the verification carry no [maxAge]. *)
Lemma zero_maxAge_not_included :
  let self := Doubles.instance_without_secret (Doubles.id_token_response "RS256.ok.sig") in
  member Doubles.nonce_and_zero_maxAge "maxAge" = JsNum 0 /\
  exists opts,
    In (Verified (JsStr "RS256.ok.sig") opts)
       (snd (stub_createAndValidate self JsUndefined Doubles.nonce_and_zero_maxAge)) /\
    maxAge opts = None.
Proof.
  split; [reflexivity |].
  exists Doubles.nonce_options. split; [| reflexivity]. simpl. left. reflexivity.
Qed.

Lemma missing_domain_not_validated_witness :
  exists self,
    construct (Doubles.authenticator (Doubles.id_token_response "RS256.ok.sig"))
      (JsObj [("clientId", JsStr "client-1")]) = Normal self /\
    jwksUri (_jwksClient self) = "https://undefined/.well-known/jwks.json" /\
    forall params data token opts,
      In (Verified token opts) (snd (stub_createAndValidate self params data)) \/
      In (Validated token opts) (snd (stub_createAndValidate self params data)) ->
      issuer opts = "https://undefined/".
Proof.
  apply (missing_domain_not_validated
           Doubles.getSigningKey Doubles.Buffer_from_throws Doubles.jwt_verify
           Doubles.validateIdToken
           Doubles.oauth_create
           (Doubles.authenticator (Doubles.id_token_response "RS256.ok.sig"))
           [("clientId", JsStr "client-1")]);
    reflexivity.
Defined.

(** Both forms on a response without an identity token, the callback being
    one that returns normally. *)
Lemma dual_mode_reporting_witness :
  let r := JsObj [("access_token", JsStr "at-1")] in
  let self := Doubles.instance_without_secret r in
  returned (stub_create self JsUndefined (JsObj []) JsUndefined) =
    ReturnsPromise (Resolved r) /\
  callback_calls (stub_create self JsUndefined (JsObj []) JsUndefined) = [] /\
  returned (stub_create self JsUndefined (JsObj []) (JsFun "done")) = ReturnsUndefined /\
  callback_calls (stub_create self JsUndefined (JsObj []) (JsFun "done")) = [CbSuccess r].
Proof.
  intros r self.
  destruct (dual_mode_reporting
              Doubles.getSigningKey Doubles.Buffer_from_throws Doubles.jwt_verify
           Doubles.validateIdToken
              Doubles.oauth_create Doubles.run_callback self JsUndefined (JsObj []))
    as (Hpromise & Hcallback & _).
  destruct (Hpromise JsUndefined eq_refl) as [Hp1 Hp2].
  destruct (Hcallback "done" eq_refl) as [Hc1 Hc2].
  repeat split; assumption.
Defined.

(** C8 does not hold as stated: called without a callback and without a role
    id, [addPermissions] throws instead of returning a promise. *)
Lemma addPermissions_throws_without_callback :
  RolesManager.addPermissions (JsObj []) (JsObj []) JsUndefined =
    RolesManager.Throws (mkError ArgumentError RolesManager.ROLE_ID_MISSING) /\
  ~ (exists call,
       RolesManager.addPermissions (JsObj []) (JsObj []) JsUndefined =
         RolesManager.Returns call).
Proof. split; [reflexivity |]. intros [call H]. discriminate H. Qed.

(** A callback that throws on the success call is invoked a second time, by
    the [catch] handler, with what it threw. *)
Example throwing_callback_called_twice :
  let r := JsObj [("access_token", JsStr "at-1")] in
  callback_calls
    (stub_create (Doubles.instance_without_secret r) JsUndefined (JsObj [])
       (JsFun "thrower")) =
    [CbSuccess r; CbFailure (mkError (OtherError "Error") "callback failed")].
Proof. reflexivity. Qed.

End OAuthWithIDTokenValidation.

(** ** Auth0RestClient: request encoding and error sanitisation *)

Module RestClient.

(** *** Request encoding *)

Definition is_alphanumeric (c : ascii) : bool :=
  let n := N_of_ascii c in
  ((48 <=? n) && (n <=? 57) || (65 <=? n) && (n <=? 90) || (97 <=? n) && (n <=? 122))%N.

(** Modelled from the spec: the characters the strict encoding of the
    identifier leaves alone; [Auth0RestClient.js] is not among the sources.
    The spec asks that [/], [|] and the other reserved characters be escaped;
    the set is the one of [encodeURIComponent]. *)
Definition is_unreserved (c : ascii) : bool :=
  is_alphanumeric c ||
  existsb (Ascii.eqb c) (list_ascii_of_string "-_.!~*'()").

Definition hex_digit (n : N) : ascii :=
  if (n <? 10)%N then ascii_of_N (48 + n) else ascii_of_N (55 + n).

(** [%XX], with upper-case hexadecimal digits. *)
Definition percent_encode (c : ascii) : string :=
  let n := N_of_ascii c in
  String "%" (String (hex_digit (n / 16)) (String (hex_digit (n mod 16)) EmptyString)).

(** Modelled from the spec: the strict percent-encoding applied to the
    identifier parameter; [Auth0RestClient.js] is not among the sources. *)
Fixpoint encode_strict (s : string) : string :=
  match s with
  | EmptyString => EmptyString
  | String c rest =>
      (if is_unreserved c then String c EmptyString else percent_encode c)
      +:+ encode_strict rest
  end.

Fixpoint strip_prefix (p s : string) : option string :=
  match p, s with
  | EmptyString, _ => Some s
  | String a p', String b s' => if Ascii.eqb a b then strip_prefix p' s' else None
  | String _ _, EmptyString => None
  end.

(** Modelled from the spec: the first occurrence of [placeholder] in the URL
    template is replaced by [value]; a template without the placeholder is
    left as it is. *)
Fixpoint substitute (template placeholder value : string) : string :=
  match strip_prefix placeholder template with
  | Some rest => value +:+ rest
  | None =>
      match template with
      | EmptyString => EmptyString
      | String c rest => String c (substitute rest placeholder value)
      end
  end.

(** Whether [needle] occurs in [s]. *)
Fixpoint occurs (needle s : string) : bool :=
  match strip_prefix needle s with
  | Some _ => true
  | None =>
      match s with
      | EmptyString => false
      | String _ rest => occurs needle rest
      end
  end.

Fixpoint lookup_param (k : string) (params : list (string * string)) : option string :=
  match params with
  | [] => None
  | (k', v) :: rest => if String.eqb k k' then Some v else lookup_param k rest
  end.

Definition is_identifier (kv : string * string) : bool := String.eqb (fst kv) "id".

Section Encoding.

(** The encoding the transport applies to the values of a query string. *)
Variable default_query_encode : string -> string.

Definition query_string (params : list (string * string)) : string :=
  match params with
  | [] => ""
  | _ => "?" +:+ Js.join "&" (List.map (fun kv => fst kv +:+ "=" +:+ default_query_encode (snd kv)) params)
  end.

(** Modelled from the spec: the request target of a call with [params] on a
    resource declared with [template]: the [:id] placeholder takes the
    strictly encoded [id], the other parameters go to the query string with
    the transport's encoding; [Auth0RestClient.js] is not among the sources. *)
Definition request_target (template : string) (params : list (string * string)) : string :=
  (match lookup_param "id" params with
   | Some id => substitute template ":id" (encode_strict id)
   | None => template
   end)
  +:+ query_string (List.filter (fun kv => negb (is_identifier kv)) params).

End Encoding.

(** The characters that can occur in a strictly encoded identifier. *)
Definition is_encoded_char (c : ascii) : bool :=
  is_unreserved c || Ascii.eqb c "%" ||
  existsb (Ascii.eqb c) (list_ascii_of_string "0123456789ABCDEF").

(** A stand-in for the encoding of the transport: as the strict one, but
    leaving the characters of a path alone. *)
Definition encode_loose (s : string) : string :=
  string_of_list_ascii
    (flat_map (fun c => if is_unreserved c
                           || existsb (Ascii.eqb c) (list_ascii_of_string "/:@$,;+")
                        then [c] else list_ascii_of_string (percent_encode c))
       (list_ascii_of_string s)).

(** *** Error sanitisation *)

Definition REDACTED : string := "[REDACTED]".

(** The outbound request kept by a transport error, with its header map. *)
Record OutboundRequest : Type := mkRequest {
  request_method : string;
  _header : gmap string string
}.

Record TransportResponse : Type := mkResponse {
  statusCode : Z;
  request : option OutboundRequest
}.

Record TransportError : Type := mkTransportError {
  transport_message : string;
  response : option TransportResponse
}.

(** The error handed to the caller: [{ message, originalError? }]. *)
Record ApiError : Type := mkApiError {
  message : string;
  originalError : option TransportError
}.

(** [err.originalError.response.request._header], when all of it is there. *)
Definition captured_header (err : ApiError) : option (gmap string string) :=
  t ← originalError err; r ← response t; q ← request r; Some (_header q).

(** Modelled from the spec: an [authorization] entry of the header map has
    its value replaced by the marker; [Auth0RestClient.js] and the error
    helpers are not among the sources. *)
Definition redact (header : gmap string string) : gmap string string :=
  match header !! "authorization" with
  | Some _ => <["authorization" := REDACTED]> header
  | None => header
  end.

Definition sanitize_request (q : OutboundRequest) : OutboundRequest :=
  {| request_method := request_method q; _header := redact (_header q) |}.

Definition sanitize_response (r : TransportResponse) : TransportResponse :=
  {| statusCode := statusCode r; request := sanitize_request <$> request r |}.

Definition sanitize_transport (t : TransportError) : TransportError :=
  {| transport_message := transport_message t;
     response := sanitize_response <$> response t |}.

(** Modelled from the spec: the sanitisation of an error before it reaches
    the caller. *)
Definition sanitize (err : ApiError) : ApiError :=
  {| message := message err; originalError := sanitize_transport <$> originalError err |}.

(** How a call ends for the caller. *)
Inductive CallOutcome (A : Type) : Type :=
| Succeeded (data : A)
| Failed (err : ApiError).
Arguments Succeeded {A} data.
Arguments Failed {A} err.

(** Modelled from the spec: one call of the authenticated client.  The token
    provider either fails with a message or yields a token; its failure is
    passed on as it is and no request is made;
    otherwise the request is made with [Authorization: Bearer <token>], and a
    failure of the transport is sanitised before it is passed on. *)
Definition authenticated_call {A : Type}
    (getAccessToken : string + string)
    (transport : gmap string string -> CallOutcome A)
    (headers : gmap string string) : CallOutcome A :=
  match getAccessToken with
  | inl provider_message => Failed (mkApiError provider_message None)
  | inr token =>
      match transport (<["Authorization" := "Bearer " +:+ token]> headers) with
      | Succeeded data => Succeeded data
      | Failed err => Failed (sanitize err)
      end
  end.

(** A transport that answers 401 and keeps the request it was given. *)
Definition unauthorized (sent : gmap string string) : CallOutcome unit :=
  Failed
    {| message := "Unauthorized";
       originalError :=
         Some {| transport_message := "Unauthorized";
                 response :=
                   Some {| statusCode := 401;
                           request :=
                             Some {| request_method := "GET";
                                     _header :=
                                       {[ "authorization" :=
                                            default "" (sent !! "Authorization") ]} |} |} |} |}.

(** *** Properties *)

Lemma strip_prefix_app p s : strip_prefix p (p +:+ s) = Some s.
Proof.
  induction p as [| a p IH]; simpl; [reflexivity |].
  rewrite Ascii.eqb_refl. exact IH.
Qed.

Lemma substitute_cons c rest placeholder value :
  strip_prefix placeholder (String c rest) = None ->
  substitute (String c rest) placeholder value =
    String c (substitute rest placeholder value).
Proof. intros H. cbn [substitute]. rewrite H. reflexivity. Qed.

Lemma occurs_cons needle c s :
  occurs needle (String c s) = false ->
  strip_prefix needle (String c s) = None /\ occurs needle s = false.
Proof.
  cbn [occurs]. destruct (strip_prefix needle (String c s)); [discriminate |].
  intros H. split; [reflexivity | exact H].
Qed.

(** A placeholder cannot start in [prefix] and end in what follows it. *)
Lemma no_straddling_placeholder c p suffix :
  strip_prefix ":id" (String c p) = None ->
  strip_prefix ":id" (String c (p +:+ ":id" +:+ suffix)) = None.
Proof.
  cbn [strip_prefix]. destruct (Ascii.eqb ":" c); [| reflexivity].
  destruct p as [| x p]; [reflexivity |].
  change (String x p +:+ ":id" +:+ suffix) with (String x (p +:+ ":id" +:+ suffix)).
  cbn [strip_prefix]. destruct (Ascii.eqb "i" x); [| reflexivity].
  destruct p as [| y p]; [reflexivity |].
  change (String y p +:+ ":id" +:+ suffix) with (String y (p +:+ ":id" +:+ suffix)).
  cbn [strip_prefix]. destruct (Ascii.eqb "d" y); [discriminate | reflexivity].
Qed.

Lemma substitute_first_placeholder prefix suffix value :
  occurs ":id" prefix = false ->
  substitute (prefix +:+ ":id" +:+ suffix) ":id" value = prefix +:+ value +:+ suffix.
Proof.
  induction prefix as [| c prefix IH]; intros Hfree.
  - change (EmptyString +:+ ":id" +:+ suffix) with (":id" +:+ suffix).
    destruct suffix; reflexivity.
  - apply occurs_cons in Hfree as [Hhere Hrest].
    change (String c prefix +:+ ":id" +:+ suffix)
      with (String c (prefix +:+ ":id" +:+ suffix)).
    rewrite substitute_cons by (apply no_straddling_placeholder; exact Hhere).
    rewrite (IH Hrest). reflexivity.
Qed.

Lemma percent_encode_chars c :
  forallb is_encoded_char (list_ascii_of_string (percent_encode c)) = true.
Proof. destruct c as [[] [] [] [] [] [] [] []]; vm_compute; reflexivity. Qed.

Lemma list_ascii_of_string_app s t :
  list_ascii_of_string (s +:+ t) =
    (list_ascii_of_string s ++ list_ascii_of_string t)%list.
Proof. induction s as [| c s IH]; simpl; [reflexivity | rewrite IH; reflexivity]. Qed.

Lemma encode_strict_chars s :
  forallb is_encoded_char (list_ascii_of_string (encode_strict s)) = true.
Proof.
  induction s as [| c s IH]; [reflexivity |].
  cbn [encode_strict]. rewrite list_ascii_of_string_app, forallb_app, IH, andb_true_r.
  destruct (is_unreserved c) eqn:Hc.
  - simpl. unfold is_encoded_char. rewrite Hc. reflexivity.
  - apply percent_encode_chars.
Qed.

Lemma append_empty_r s : s +:+ "" = s.
Proof.
  induction s as [| c s IH]; [reflexivity |].
  change (String c s +:+ "") with (String c (s +:+ "")). rewrite IH. reflexivity.
Qed.

(** C6.  The [:id] placeholder of the URL template (a template ending in
    its only [:id]) takes the strictly percent-encoded identifier, in which
    no reserved character such as [|] or [/] is left, while the other
    parameters go to the query string with the encoding of the transport;
    [/some-resource/:id] with [{ id: 'auth0|1234/5678' }] gives
    [/some-resource/auth0%7C1234%2F5678]. *)
Theorem identifier_strictly_encoded (enc : string -> string) (prefix id : string)
    (params : list (string * string)) :
  occurs ":id" prefix = false ->
  lookup_param "id" params = Some id ->
  request_target enc (prefix +:+ ":id") params =
    (prefix +:+ encode_strict id)
    +:+ query_string enc (List.filter (fun kv => negb (is_identifier kv)) params) /\
  forallb is_encoded_char (list_ascii_of_string (encode_strict id)) = true /\
  is_encoded_char "|" = false /\
  is_encoded_char "/" = false /\
  request_target enc "/some-resource/:id" [("id", "auth0|1234/5678")] =
    "/some-resource/auth0%7C1234%2F5678".
Proof.
  intros Hprefix Hid. repeat split.
  - unfold request_target. rewrite Hid.
    pose proof (substitute_first_placeholder prefix "" (encode_strict id) Hprefix) as Hsub.
    change (":id" +:+ "") with ":id" in Hsub.
    rewrite Hsub, append_empty_r. reflexivity.
  - apply encode_strict_chars.
Qed.

Lemma identifier_strictly_encoded_witness :
  request_target encode_loose "https://tenant.auth0.com/some-resource/:id"
    [("id", "auth0|1234"); ("other", "foo/bar"); ("otherEncoded", "auth0|6789")] =
    "https://tenant.auth0.com/some-resource/auth0%7C1234?other=foo/bar&otherEncoded=auth0%7C6789".
Proof.
  destruct (identifier_strictly_encoded encode_loose
              "https://tenant.auth0.com/some-resource/" "auth0|1234"
              [("id", "auth0|1234"); ("other", "foo/bar"); ("otherEncoded", "auth0|6789")]
              eq_refl eq_refl) as [Htarget _].
  exact Htarget.
Defined.

Lemma captured_header_sanitize err :
  captured_header (sanitize err) = redact <$> captured_header err.
Proof.
  destruct err as [msg [[tmsg [[status [[method header] |]] |]] |]]; reflexivity.
Qed.

Lemma redact_authorization (header : gmap string string) v :
  header !! "authorization" = Some v ->
  redact header !! "authorization" = Some REDACTED /\
  forall k, k <> "authorization" -> redact header !! k = header !! k.
Proof.
  intros Hv. unfold redact. rewrite Hv. split.
  - apply lookup_insert_eq.
  - intros k Hk. apply lookup_insert_ne. congruence.
Qed.

(** C3.  When a call fails with an error whose captured outbound request has
    an [authorization] header, the error handed to the caller carries
    [[REDACTED]] in place of that header's value, whatever the credential
    was, the other headers being kept. *)
Theorem failed_call_redacts_authorization {A : Type}
    (transport : gmap string string -> CallOutcome A)
    (headers : gmap string string) (token : string)
    (raw : ApiError) (header : gmap string string) (credential : string) :
  transport (<["Authorization" := "Bearer " +:+ token]> headers) = Failed raw ->
  captured_header raw = Some header ->
  header !! "authorization" = Some credential ->
  exists err header',
    authenticated_call (inr token) transport headers = Failed err /\
    captured_header err = Some header' /\
    header' !! "authorization" = Some REDACTED /\
    forall k, k <> "authorization" -> header' !! k = header !! k.
Proof.
  intros Hfail Hcaptured Hauth.
  exists (sanitize raw), (redact header).
  unfold authenticated_call. rewrite Hfail. split; [reflexivity |].
  rewrite captured_header_sanitize, Hcaptured. split; [reflexivity |].
  exact (redact_authorization _ _ Hauth).
Qed.

Lemma failed_call_redacts_authorization_witness :
  exists err header',
    authenticated_call (inr "access_token") unauthorized ∅ = Failed err /\
    captured_header err = Some header' /\
    header' !! "authorization" = Some REDACTED /\
    forall k, k <> "authorization" ->
      header' !! k =
        ({[ "authorization" := "Bearer access_token" ]} : gmap string string) !! k.
Proof.
  apply (failed_call_redacts_authorization unauthorized ∅ "access_token"
           (mkApiError "Unauthorized"
              (Some (mkTransportError "Unauthorized"
                 (Some (mkResponse 401
                    (Some (mkRequest "GET"
                       {[ "authorization" := "Bearer access_token" ]})))))))
           {[ "authorization" := "Bearer access_token" ]} "Bearer access_token").
  - unfold unauthorized. rewrite lookup_insert_eq. reflexivity.
  - reflexivity.
  - apply lookup_singleton_eq.
Defined.

End RestClient.

(** ** RolesManager: further properties of the role methods *)

Module RoleMethods.
Import Js RolesManager.

(** What the guard of the three methods decides, in terms of [params.id]. *)
Lemma guard_outcome params :
  require_role_id (js_or params (JsObj [])) =
    if negb (truthy (role_id params))
    then Throw (mkError ArgumentError ROLE_ID_MISSING)
    else if negb (String.eqb (typeof (role_id params)) "string")
         then Throw (mkError ArgumentError ROLE_ID_NOT_STRING)
         else Normal tt.
Proof. apply require_role_id_eq, params_or_empty_truthy. Qed.

Lemma guard_passes_iff params :
  require_role_id (js_or params (JsObj [])) = Normal tt <->
  exists s, role_id params = JsStr s /\ s <> "".
Proof.
  rewrite guard_outcome. split.
  - destruct (role_id params) as [| | b | n | s | items | fields | name];
      simpl; try discriminate;
      try (destruct b; discriminate);
      try (destruct (n =? 0); discriminate).
    destruct (String.eqb_spec s ""); simpl; [discriminate |].
    intros _. exists s. split; [reflexivity | assumption].
  - intros (s & -> & Hs). simpl.
    destruct (String.eqb_spec s ""); [contradiction | reflexivity].
Qed.

Lemma function_is_truthy cb : truthy cb && instanceof_Function cb = instanceof_Function cb.
Proof. destruct cb; simpl; try reflexivity; apply andb_false_r. Qed.

(** The arguments of the delegated call: the callback is handed on only when
    it is a function. *)
Definition delegated_args (params data cb : JsVal) : list JsVal :=
  [js_or params (JsObj []); js_or data (JsObj [])]
  ++ (if instanceof_Function cb then [cb] else []).

Lemma addPermissions_outcome params data cb :
  addPermissions params data cb =
    match require_role_id (js_or params (JsObj [])) with
    | Throw e => Throws e
    | Normal _ => Returns (mkCall permissions rest_create (delegated_args params data cb))
    end.
Proof.
  unfold addPermissions, delegated_args. rewrite function_is_truthy.
  destruct (require_role_id (js_or params (JsObj []))); simpl; [| reflexivity].
  destruct (instanceof_Function cb); reflexivity.
Qed.

Lemma removePermissions_outcome params data cb :
  removePermissions params data cb =
    match require_role_id (js_or params (JsObj [])) with
    | Throw e => Throws e
    | Normal _ => Returns (mkCall permissions rest_delete (delegated_args params data cb))
    end.
Proof.
  unfold removePermissions, delegated_args. rewrite function_is_truthy.
  destruct (require_role_id (js_or params (JsObj []))); simpl; [| reflexivity].
  destruct (instanceof_Function cb); reflexivity.
Qed.

Lemma assignUsers_outcome params data cb :
  assignUsers params data cb =
    match require_role_id (js_or params (JsObj [])) with
    | Throw e => Throws e
    | Normal _ =>
        Returns (mkCall (if instanceof_Function cb then permissions else users)
                   rest_create (delegated_args params data cb))
    end.
Proof.
  unfold assignUsers, delegated_args. rewrite function_is_truthy.
  destruct (require_role_id (js_or params (JsObj []))); simpl; [| reflexivity].
  destruct (instanceof_Function cb); reflexivity.
Qed.

Lemma guarded_returns_iff params (c : RestCall) :
  (exists c', match require_role_id (js_or params (JsObj [])) with
              | Throw e => Throws e
              | Normal _ => Returns c
              end = Returns c') <->
  exists s, role_id params = JsStr s /\ s <> "".
Proof.
  rewrite <- guard_passes_iff.
  destruct (require_role_id (js_or params (JsObj []))) as [[] | e]; split.
  - reflexivity.
  - intros _. exists c. reflexivity.
  - intros [c' H]. discriminate.
  - discriminate.
Qed.

(** X1.  Each of [addPermissions], [removePermissions] and [assignUsers]
    reaches a sub-resource exactly when [params.id] is a non-empty string,
    whatever the data and the callback. *)
Theorem role_methods_accept_iff (params data cb : JsVal) :
  ((exists c, addPermissions params data cb = Returns c) <->
   exists s, role_id params = JsStr s /\ s <> "") /\
  ((exists c, removePermissions params data cb = Returns c) <->
   exists s, role_id params = JsStr s /\ s <> "") /\
  ((exists c, assignUsers params data cb = Returns c) <->
   exists s, role_id params = JsStr s /\ s <> "").
Proof.
  rewrite addPermissions_outcome, removePermissions_outcome, assignUsers_outcome.
  repeat split; apply guarded_returns_iff.
Qed.

(** X2.  The error of the three methods is chosen by truthiness first: a
    falsy [params.id] (so also the empty string, [0] or [false]) is reported
    as missing, and only a truthy value that is not a string is reported as
    not being a string. *)
Theorem role_id_error_message (op : JsVal -> JsVal -> JsVal -> Outcome)
    (params data cb : JsVal) :
  In op [addPermissions; removePermissions; assignUsers] ->
  (truthy (role_id params) = false ->
   op params data cb = Throws (mkError ArgumentError ROLE_ID_MISSING)) /\
  (truthy (role_id params) = true -> typeof (role_id params) <> "string" ->
   op params data cb = Throws (mkError ArgumentError ROLE_ID_NOT_STRING)).
Proof.
  intros Hop.
  assert (Hout : exists c,
             op params data cb =
               match require_role_id (js_or params (JsObj [])) with
               | Throw e => Throws e
               | Normal _ => Returns c
               end).
  { simpl in Hop. destruct Hop as [<- | [<- | [<- | []]]].
    - rewrite addPermissions_outcome. eauto.
    - rewrite removePermissions_outcome. eauto.
    - rewrite assignUsers_outcome. eauto. }
  destruct Hout as [c ->]. rewrite guard_outcome. split.
  - intros ->. reflexivity.
  - intros -> Hty. simpl.
    destruct (String.eqb_spec (typeof (role_id params)) "string");
      [contradiction | reflexivity].
Qed.

Lemma role_id_error_message_witness :
  removePermissions (JsObj [("id", JsStr "")]) JsUndefined (JsFun "done") =
    Throws (mkError ArgumentError ROLE_ID_MISSING) /\
  removePermissions (JsObj [("id", JsNum 42)]) JsUndefined (JsFun "done") =
    Throws (mkError ArgumentError ROLE_ID_NOT_STRING).
Proof.
  split.
  - apply (role_id_error_message removePermissions (JsObj [("id", JsStr "")])
             JsUndefined (JsFun "done")); [simpl; auto | reflexivity].
  - apply (role_id_error_message removePermissions (JsObj [("id", JsNum 42)])
             JsUndefined (JsFun "done")); [simpl; auto | reflexivity | discriminate].
Defined.

(** X3.  With a non-empty string [params.id], [addPermissions] calls [create]
    and [removePermissions] calls [delete] on the permissions sub-resource,
    with [params] as given, [data] replaced by an empty object when falsy,
    and the callback only when it is a function: any other callback value is
    dropped. *)
Theorem permissions_delegation (params data cb : JsVal) (s : string) :
  role_id params = JsStr s -> s <> "" ->
  addPermissions params data cb =
    Returns (mkCall permissions rest_create
               ([params; if truthy data then data else JsObj []]
                ++ (if instanceof_Function cb then [cb] else []))) /\
  removePermissions params data cb =
    Returns (mkCall permissions rest_delete
               ([params; if truthy data then data else JsObj []]
                ++ (if instanceof_Function cb then [cb] else []))).
Proof.
  intros Hid Hs.
  assert (Hguard : require_role_id (js_or params (JsObj [])) = Normal tt).
  { apply guard_passes_iff. eauto. }
  rewrite addPermissions_outcome, removePermissions_outcome, Hguard.
  unfold delegated_args. rewrite (role_id_string_params _ _ Hid).
  split; reflexivity.
Qed.

Lemma permissions_delegation_witness :
  let params := JsObj [("id", JsStr "rol_1")] in
  addPermissions params JsUndefined (JsStr "not a function") =
    Returns (mkCall permissions rest_create [params; JsObj []]) /\
  removePermissions params JsUndefined (JsStr "not a function") =
    Returns (mkCall permissions rest_delete [params; JsObj []]).
Proof.
  intros params.
  apply (permissions_delegation params JsUndefined (JsStr "not a function") "rol_1");
    [reflexivity | discriminate].
Defined.

(** X4.  Every sub-resource call made by the three methods goes to the
    permissions or the users sub-resource, never to the role resource itself,
    is a [create] or a [delete], and carries a [params] whose [id] is a
    non-empty string, a truthy [data], and after them nothing or the function
    given as callback. *)
Theorem role_calls_carry_valid_id (op : JsVal -> JsVal -> JsVal -> Outcome)
    (params data cb : JsVal) (c : RestCall) :
  In op [addPermissions; removePermissions; assignUsers] ->
  In c (calls_made (op params data cb)) ->
  call_target c <> resource /\
  (call_method c = rest_create \/ call_method c = rest_delete) /\
  exists p d rest s,
    call_args c = p :: d :: rest /\
    member p "id" = JsStr s /\ s <> "" /\
    truthy d = true /\
    (rest = [] \/ rest = [cb] /\ instanceof_Function cb = true).
Proof.
  intros Hop Hc.
  assert (Hcall : require_role_id (js_or params (JsObj [])) = Normal tt /\
                  exists target method,
                    c = mkCall target method (delegated_args params data cb) /\
                    target <> resource /\
                    (method = rest_create \/ method = rest_delete)).
  { simpl in Hop. destruct Hop as [<- | [<- | [<- | []]]]; revert Hc.
    - rewrite addPermissions_outcome.
      destruct (require_role_id (js_or params (JsObj []))) as [[] | e]; simpl;
        [| intros []].
      intros [<- | []]. split; [reflexivity |].
      exists permissions, rest_create. repeat split; [discriminate | auto].
    - rewrite removePermissions_outcome.
      destruct (require_role_id (js_or params (JsObj []))) as [[] | e]; simpl;
        [| intros []].
      intros [<- | []]. split; [reflexivity |].
      exists permissions, rest_delete. repeat split; [discriminate | auto].
    - rewrite assignUsers_outcome.
      destruct (require_role_id (js_or params (JsObj []))) as [[] | e]; simpl;
        [| intros []].
      intros [<- | []]. split; [reflexivity |].
      exists (if instanceof_Function cb then permissions else users), rest_create.
      repeat split; [destruct (instanceof_Function cb); discriminate | auto]. }
  destruct Hcall as (Hguard & target & method & -> & Htarget & Hmethod).
  apply guard_passes_iff in Hguard as (s & Hid & Hs).
  simpl. repeat split; [exact Htarget | exact Hmethod |].
  exists (js_or params (JsObj [])), (js_or data (JsObj [])),
    (if instanceof_Function cb then [cb] else []), s.
  repeat split; try assumption.
  - apply js_or_truthy. reflexivity.
  - destruct (instanceof_Function cb); auto.
Qed.

Lemma role_calls_carry_valid_id_witness :
  let params := JsObj [("id", JsStr "rol_1")] in
  let c := mkCall users rest_create [params; JsObj []] in
  call_target c <> resource /\
  (call_method c = rest_create \/ call_method c = rest_delete) /\
  exists p d rest s,
    call_args c = p :: d :: rest /\
    member p "id" = JsStr s /\ s <> "" /\
    truthy d = true /\
    (rest = [] \/ rest = [JsUndefined] /\ instanceof_Function JsUndefined = true).
Proof.
  intros params c.
  apply (role_calls_carry_valid_id assignUsers params JsUndefined JsUndefined c).
  - simpl. auto.
  - simpl. left. reflexivity.
Defined.

(** X5.  Given a function as callback, [assignUsers] does exactly what
    [addPermissions] does: the same error, or the same [create] call on the
    permissions sub-resource; the users sub-resource is not involved. *)
Theorem assignUsers_with_callback_is_addPermissions (params data cb : JsVal) :
  instanceof_Function cb = true ->
  assignUsers params data cb = addPermissions params data cb.
Proof.
  intros Hcb. rewrite assignUsers_outcome, addPermissions_outcome, Hcb. reflexivity.
Qed.

Lemma assignUsers_with_callback_is_addPermissions_witness :
  assignUsers (JsObj [("id", JsStr "rol_1")]) (JsObj []) (JsFun "done") =
  addPermissions (JsObj [("id", JsStr "rol_1")]) (JsObj []) (JsFun "done").
Proof.
  apply (assignUsers_with_callback_is_addPermissions
           (JsObj [("id", JsStr "rol_1")]) (JsObj []) (JsFun "done")).
  reflexivity.
Defined.

End RoleMethods.

(** ** The constructors of RolesManager and ClientsManager *)

Module Managers.
Import Js.

(** [new RetryRestClient(new Auth0RestClient(url, clientOptions, tokenProvider), retry)],
    known by the arguments it is built from; what the two constructors do
    with them is not part of the managers. *)
Record RestResource : Type := mkResource {
  resource_url : string;
  client_options : JsVal;
  token_provider : JsVal;
  retry_options : JsVal
}.

Record RolesManagerInstance : Type := mkRoles {
  roles_resource : RestResource;
  roles_permissions : RestResource;
  roles_users : RestResource
}.

Record ClientsManagerInstance : Type := mkClients {
  clients_resource : RestResource
}.

(** [v === null] and [v === undefined]. *)
Definition is_null (v : JsVal) : bool :=
  match v with JsNull => true | _ => false end.
Definition is_undefined (v : JsVal) : bool :=
  match v with JsUndefined => true | _ => false end.

(** [v.length === 0] for a string [v]. *)
Definition has_length_zero (v : JsVal) : bool :=
  match v with
  | JsStr s => Nat.eqb (String.length s) 0
  | _ => false
  end.

Definition BASE_URL_MISSING : string := "Must provide a base URL for the API".
Definition BASE_URL_INVALID : string := "The provided base URL is invalid".

(** [new RolesManager(options)]; every [options.k] is a property read. *)
Definition new_RolesManager (options : JsVal) : Completion RolesManagerInstance :=
  if is_null options || negb (String.eqb (typeof options) "object") then
    Throw (mkError ArgumentError "Must provide manager options")
  else
    b1 <- get_member options "baseUrl" ;;
    b2 <- get_member options "baseUrl" ;;
    if is_null b1 || is_undefined b2 then
      Throw (mkError ArgumentError BASE_URL_MISSING)
    else
      b3 <- get_member options "baseUrl" ;;
      b4 <- get_member options "baseUrl" ;;
      if negb (String.eqb "string" (typeof b3)) || has_length_zero b4 then
        Throw (mkError ArgumentError BASE_URL_INVALID)
      else
        headers <- get_member options "headers" ;;
        let clientOptions :=
          JsObj [("headers", headers);
                 ("query", JsObj [("repeatParams", JsBool false)])] in
        u1 <- get_member options "baseUrl" ;;
        t1 <- get_member options "tokenProvider" ;;
        r1 <- get_member options "retry" ;;
        u2 <- get_member options "baseUrl" ;;
        t2 <- get_member options "tokenProvider" ;;
        r2 <- get_member options "retry" ;;
        u3 <- get_member options "baseUrl" ;;
        t3 <- get_member options "tokenProvider" ;;
        r3 <- get_member options "retry" ;;
        Normal {|
          roles_resource :=
            mkResource (to_template_string u1 +:+ "/roles/:id") clientOptions t1 r1;
          roles_permissions :=
            mkResource (to_template_string u2 +:+ "/roles/:id/permissions")
              clientOptions t2 r2;
          roles_users :=
            mkResource (to_template_string u3 +:+ "/roles/:id/users")
              clientOptions t3 r3 |}.

(** [new ClientsManager(options)]. *)
Definition new_ClientsManager (options : JsVal) : Completion ClientsManagerInstance :=
  if is_null options || negb (String.eqb (typeof options) "object") then
    Throw (mkError ArgumentError "Must provide client options")
  else
    b1 <- get_member options "baseUrl" ;;
    b2 <- get_member options "baseUrl" ;;
    if is_null b1 || is_undefined b2 then
      Throw (mkError ArgumentError BASE_URL_MISSING)
    else
      b3 <- get_member options "baseUrl" ;;
      b4 <- get_member options "baseUrl" ;;
      if negb (String.eqb "string" (typeof b3)) || has_length_zero b4 then
        Throw (mkError ArgumentError BASE_URL_INVALID)
      else
        headers <- get_member options "headers" ;;
        let clientOptions :=
          JsObj [("errorFormatter",
                  JsObj [("message", JsStr "message"); ("name", JsStr "error")]);
                 ("headers", headers);
                 ("query", JsObj [("repeatParams", JsBool false)])] in
        u <- get_member options "baseUrl" ;;
        t <- get_member options "tokenProvider" ;;
        r <- get_member options "retry" ;;
        Normal {|
          clients_resource :=
            mkResource (to_template_string u +:+ "/clients/:client_id")
              clientOptions t r |}.

(** The checks of the two constructors, [missing] being the message of the
    first one. *)
Definition option_checks (missing : string) (options : JsVal) : option JsError :=
  if is_null options || negb (String.eqb (typeof options) "object") then
    Some (mkError ArgumentError missing)
  else if is_null (member options "baseUrl") || is_undefined (member options "baseUrl") then
    Some (mkError ArgumentError BASE_URL_MISSING)
  else if negb (String.eqb "string" (typeof (member options "baseUrl")))
          || has_length_zero (member options "baseUrl") then
    Some (mkError ArgumentError BASE_URL_INVALID)
  else None.

Lemma object_read options k :
  is_null options || negb (String.eqb (typeof options) "object") = false ->
  get_member options k = Normal (member options k).
Proof. destruct options; simpl; try discriminate; reflexivity. Qed.

(** Both constructors fail exactly as [option_checks] says, and succeed
    otherwise. *)
Lemma new_RolesManager_checks options :
  match option_checks "Must provide manager options" options with
  | Some e => new_RolesManager options = Throw e
  | None => exists inst, new_RolesManager options = Normal inst
  end.
Proof.
  unfold option_checks, new_RolesManager.
  destruct (is_null options || negb (String.eqb (typeof options) "object")) eqn:Hobj;
    [reflexivity |].
  rewrite !(object_read _ _ Hobj). cbn [bind].
  destruct (is_null (member options "baseUrl") || is_undefined (member options "baseUrl"));
    [reflexivity |].
  destruct (negb (String.eqb "string" (typeof (member options "baseUrl")))
            || has_length_zero (member options "baseUrl")); [reflexivity |].
  eauto.
Qed.

Lemma new_ClientsManager_checks options :
  match option_checks "Must provide client options" options with
  | Some e => new_ClientsManager options = Throw e
  | None => exists inst, new_ClientsManager options = Normal inst
  end.
Proof.
  unfold option_checks, new_ClientsManager.
  destruct (is_null options || negb (String.eqb (typeof options) "object")) eqn:Hobj;
    [reflexivity |].
  rewrite !(object_read _ _ Hobj). cbn [bind].
  destruct (is_null (member options "baseUrl") || is_undefined (member options "baseUrl"));
    [reflexivity |].
  destruct (negb (String.eqb "string" (typeof (member options "baseUrl")))
            || has_length_zero (member options "baseUrl")); [reflexivity |].
  eauto.
Qed.

Lemma option_checks_pass_iff missing options :
  option_checks missing options = None <->
  options <> JsNull /\ typeof options = "object" /\
  exists s, member options "baseUrl" = JsStr s /\ s <> "".
Proof.
  unfold option_checks. split.
  - destruct (is_null options || negb (String.eqb (typeof options) "object")) eqn:Hobj;
      [discriminate |].
    apply orb_false_elim in Hobj as [Hnull Hty].
    apply negb_false_iff in Hty. apply String.eqb_eq in Hty.
    destruct (member options "baseUrl") as [| | b | n | s | items | fields | name];
      simpl; try discriminate.
    destruct s as [| c s]; simpl; [discriminate |].
    intros _. repeat split.
    + intros ->. discriminate.
    + exact Hty.
    + exists (String c s). split; [reflexivity | discriminate].
  - intros (Hnull & Hty & s & Hb & Hs).
    assert (Hobj : is_null options || negb (String.eqb (typeof options) "object") = false).
    { destruct options; simpl in *; try discriminate; try reflexivity; congruence. }
    rewrite Hobj, Hb. simpl. destruct s; [contradiction | reflexivity].
Qed.

Lemma option_checks_kind missing options e :
  option_checks missing options = Some e -> err_kind e = ArgumentError.
Proof.
  unfold option_checks.
  repeat match goal with
         | |- context [if ?b then _ else _] => destruct b
         end; intros [= <-] || discriminate; reflexivity.
Qed.

(** X6.  [new RolesManager(options)] gets past its checks exactly when
    [options] is a non-null object whose [baseUrl] is a non-empty string, and
    for every other value, [undefined] and [null] included, what it throws is
    an [ArgumentError]: no property is read before [options] is known to be
    an object. *)
Theorem new_RolesManager_outcome (options : JsVal) :
  ((exists inst, new_RolesManager options = Normal inst) <->
   options <> JsNull /\ typeof options = "object" /\
   exists s, member options "baseUrl" = JsStr s /\ s <> "") /\
  (forall e, new_RolesManager options = Throw e -> err_kind e = ArgumentError).
Proof.
  pose proof (new_RolesManager_checks options) as Hchecks.
  rewrite <- (option_checks_pass_iff "Must provide manager options").
  destruct (option_checks "Must provide manager options" options) as [e |] eqn:Hc.
  - split.
    + split; [intros [inst H]; rewrite Hchecks in H; discriminate | discriminate].
    + intros e' He'. rewrite Hchecks in He'. injection He' as <-.
      exact (option_checks_kind _ _ _ Hc).
  - destruct Hchecks as [inst Hinst]. split.
    + split; [reflexivity | eauto].
    + intros e He. rewrite Hinst in He. discriminate.
Qed.

(** X7.  The two managers accept the same options, and when they refuse them
    they throw the same error, except that options which are not an object
    are reported with each manager's own message. *)
Theorem managers_agree_on_options (options : JsVal) :
  match new_ClientsManager options, new_RolesManager options with
  | Normal _, Normal _ => True
  | Throw e1, Throw e2 =>
      e1 = e2 \/
      (e1 = mkError ArgumentError "Must provide client options" /\
       e2 = mkError ArgumentError "Must provide manager options")
  | _, _ => False
  end.
Proof.
  pose proof (new_RolesManager_checks options) as Hr.
  pose proof (new_ClientsManager_checks options) as Hc.
  unfold option_checks in Hr, Hc.
  destruct (is_null options || negb (String.eqb (typeof options) "object")).
  - rewrite Hr, Hc. right. split; reflexivity.
  - destruct (is_null (member options "baseUrl") || is_undefined (member options "baseUrl")).
    + rewrite Hr, Hc. left. reflexivity.
    + destruct (negb (String.eqb "string" (typeof (member options "baseUrl")))
                || has_length_zero (member options "baseUrl")).
      * rewrite Hr, Hc. left. reflexivity.
      * destruct Hr as [ir ->], Hc as [ic ->]. exact I.
Qed.

(** X8.  For an options object, a [baseUrl] that is [null] or [undefined]
    (or absent) is reported as missing by both constructors, and any other
    value that is not a string, as well as the empty string, as invalid. *)
Theorem base_url_error_messages (options : JsVal) :
  options <> JsNull -> typeof options = "object" ->
  (member options "baseUrl" = JsNull \/ member options "baseUrl" = JsUndefined ->
   new_RolesManager options = Throw (mkError ArgumentError BASE_URL_MISSING) /\
   new_ClientsManager options = Throw (mkError ArgumentError BASE_URL_MISSING)) /\
  (member options "baseUrl" <> JsNull -> member options "baseUrl" <> JsUndefined ->
   typeof (member options "baseUrl") <> "string" \/ member options "baseUrl" = JsStr "" ->
   new_RolesManager options = Throw (mkError ArgumentError BASE_URL_INVALID) /\
   new_ClientsManager options = Throw (mkError ArgumentError BASE_URL_INVALID)).
Proof.
  intros Hnull Hty.
  pose proof (new_RolesManager_checks options) as Hr.
  pose proof (new_ClientsManager_checks options) as Hc.
  unfold option_checks in Hr, Hc.
  assert (Hobj : is_null options || negb (String.eqb (typeof options) "object") = false).
  { destruct options; simpl in *; try discriminate; try reflexivity; congruence. }
  rewrite Hobj in Hr, Hc. split.
  - intros [Hb | Hb]; rewrite Hb in Hr, Hc; simpl in Hr, Hc; split; assumption.
  - intros Hn Hu Hbad.
    destruct (member options "baseUrl") as [| | b | n | s | items | fields | name];
      try contradiction; simpl in Hr, Hc; try (split; assumption).
    destruct Hbad as [Hbad | [= ->]]; [contradiction Hbad; reflexivity |].
    simpl in Hr, Hc. split; assumption.
Qed.

Lemma base_url_error_messages_witness :
  (new_RolesManager (JsObj [("headers", JsObj [])]) =
     Throw (mkError ArgumentError BASE_URL_MISSING) /\
   new_ClientsManager (JsObj [("headers", JsObj [])]) =
     Throw (mkError ArgumentError BASE_URL_MISSING)) /\
  (new_RolesManager (JsObj [("baseUrl", JsStr "")]) =
     Throw (mkError ArgumentError BASE_URL_INVALID) /\
   new_ClientsManager (JsObj [("baseUrl", JsStr "")]) =
     Throw (mkError ArgumentError BASE_URL_INVALID)).
Proof.
  split.
  - apply (base_url_error_messages (JsObj [("headers", JsObj [])]));
      [discriminate | reflexivity | right; reflexivity].
  - apply (base_url_error_messages (JsObj [("baseUrl", JsStr "")]));
      [discriminate | reflexivity | discriminate | discriminate | right; reflexivity].
Defined.

End Managers.

(** ** OAUthWithIDTokenValidation: further properties *)

Module ExchangeValidation.
Import Js OAuthWithIDTokenValidation.

(** [alg === 'HS256']. *)
Definition is_HS256 (alg : JsVal) : bool :=
  match alg with
  | JsStr s => String.eqb s "HS256"
  | _ => false
  end.

Lemma is_HS256_iff alg : is_HS256 alg = true <-> alg = JsStr "HS256".
Proof.
  destruct alg; simpl; try (split; discriminate).
  rewrite String.eqb_eq. split; [intros -> | intros [= ->]]; reflexivity.
Qed.

Lemma includes_append_l p m needle :
  includes m needle = true -> includes (p +:+ m) needle = true.
Proof.
  intros Hm. induction p as [| c p IH]; [exact Hm |].
  change (String c p +:+ m) with (String c (p +:+ m)).
  cbn [includes]. rewrite IH. apply orb_true_r.
Qed.

Lemma append_assoc (a b c : string) : (a +:+ b) +:+ c = a +:+ b +:+ c.
Proof.
  induction a as [| x a IH]; [reflexivity |].
  change ((String x a +:+ b) +:+ c) with (String x ((a +:+ b) +:+ c)).
  rewrite IH. reflexivity.
Qed.

(** The guard [err.message &&] adds nothing: the text looked for is not
    empty. *)
Lemma hs256_secret_missing_includes err :
  hs256_secret_missing err = includes (err_message err) HS256_IGNORE_VALIDATION_MESSAGE.
Proof.
  unfold hs256_secret_missing. destruct (err_message err) as [| c m].
  - vm_compute. reflexivity.
  - reflexivity.
Qed.

(** A JWKS client that fails with the HS256 text. *)
Definition misleading_jwks (client : JwksClient) (kid : JsVal) : JsError + JsVal :=
  inl (mkError (OtherError "Error") HS256_IGNORE_VALIDATION_MESSAGE).

Section Facts.

Variable getSigningKey : JwksClient -> JsVal -> JsError + JsVal.
Variable Buffer_from_throws : JsVal -> option JsError.
Variable jwt_verify :
  JsVal -> (JsVal -> Completion (JsError + KeyMaterial)) -> VerificationOptions ->
  Completion (option JsError).
Variable validateIdToken : JsVal -> VerificationOptions -> option JsError.
Variable oauth_create : JsVal -> JsVal -> JsVal -> Settled.
Variable run_callback : string -> CbArgs -> option JsError.

Local Abbreviation key_of := (getKey getSigningKey Buffer_from_throws).
Local Abbreviation respond :=
  (validate_response getSigningKey Buffer_from_throws jwt_verify validateIdToken).
Local Abbreviation exchange :=
  (createAndValidate getSigningKey Buffer_from_throws jwt_verify validateIdToken
     oauth_create).
Local Abbreviation call :=
  (create getSigningKey Buffer_from_throws jwt_verify validateIdToken oauth_create
     run_callback).

(** The outcome of the validator, as a settlement for the response [r]. *)
Definition validated (r token : JsVal) (options : VerificationOptions) : Settled :=
  match validateIdToken token options with
  | Some idTokenError => Rejected idTokenError
  | None => Resolved r
  end.

(** The ways through the [then] callback. *)
Inductive Path (self : Instance) (data r : JsVal) : Settled * list Event -> Prop :=
| path_bypass :
    truthy (__bypassIdTokenValidation self) = true ->
    Path self data r (Resolved r, [])
| path_unreadable e :
    truthy (__bypassIdTokenValidation self) = false ->
    get_member r "id_token" = Throw e ->
    Path self data r (Rejected e, [])
| path_no_token token :
    truthy (__bypassIdTokenValidation self) = false ->
    get_member r "id_token" = Normal token -> truthy token = false ->
    Path self data r (Resolved r, [])
| path_no_options token e :
    truthy (__bypassIdTokenValidation self) = false ->
    get_member r "id_token" = Normal token -> truthy token = true ->
    verification_options self data = Throw e ->
    Path self data r (Rejected e, [])
| path_verified token options :
    truthy (__bypassIdTokenValidation self) = false ->
    get_member r "id_token" = Normal token -> truthy token = true ->
    verification_options self data = Normal options ->
    jwt_verify token (key_of self) options = Normal None ->
    Path self data r
      (validated r token options, [Verified token options; Validated token options])
| path_warned token options err :
    truthy (__bypassIdTokenValidation self) = false ->
    get_member r "id_token" = Normal token -> truthy token = true ->
    verification_options self data = Normal options ->
    jwt_verify token (key_of self) options = Normal (Some err) ->
    hs256_secret_missing err = true ->
    Path self data r
      (validated r token options,
       [Verified token options; Warned HS256_IGNORE_VALIDATION_MESSAGE;
        Validated token options])
| path_refused token options err :
    truthy (__bypassIdTokenValidation self) = false ->
    get_member r "id_token" = Normal token -> truthy token = true ->
    verification_options self data = Normal options ->
    jwt_verify token (key_of self) options = Normal (Some err) ->
    hs256_secret_missing err = false ->
    Path self data r (Rejected err, [Verified token options])
| path_threw token options thrown :
    truthy (__bypassIdTokenValidation self) = false ->
    get_member r "id_token" = Normal token -> truthy token = true ->
    verification_options self data = Normal options ->
    jwt_verify token (key_of self) options = Throw thrown ->
    Path self data r (Rejected thrown, [Verified token options]).

Lemma respond_path self data r : Path self data r (respond self data r).
Proof.
  unfold validate_response.
  destruct (truthy (__bypassIdTokenValidation self)) eqn:Hbypass;
    [apply path_bypass; assumption |].
  destruct (get_member r "id_token") as [token | e] eqn:Htoken;
    [| apply path_unreadable; assumption].
  destruct (truthy token) eqn:Htruthy; [| eapply path_no_token; eassumption].
  destruct (verification_options self data) as [options | e] eqn:Hoptions;
    [| eapply path_no_options; eassumption].
  unfold validate_then_resolve.
  destruct (jwt_verify token (key_of self) options) as [[err |] | thrown] eqn:Hverify.
  - destruct (hs256_secret_missing err) eqn:Hwarn.
    + apply (path_warned self data r token options err); assumption.
    + apply (path_refused self data r token options err); assumption.
  - apply (path_verified self data r token options); assumption.
  - apply (path_threw self data r token options thrown); assumption.
Qed.

Lemma getKey_by_alg self header :
  key_of self header =
    if is_HS256 (member header "alg") then
      if negb (truthy (clientSecret self))
      then Normal (inl (mkError PlainObject HS256_IGNORE_VALIDATION_MESSAGE))
      else
        match Buffer_from_throws (clientSecret self) with
        | Some thrown => Throw thrown
        | None => Normal (inr (SecretBuffer (clientSecret self)))
        end
    else
      match getSigningKey (_jwksClient self) (member header "kid") with
      | inl err => Normal (inl err)
      | inr key =>
          publicKey <- get_member key "publicKey" ;;
          if truthy publicKey then Normal (inr (SigningKey publicKey))
          else
            rsaPublicKey <- get_member key "rsaPublicKey" ;;
            Normal (inr (SigningKey rsaPublicKey))
      end.
Proof.
  unfold getKey, is_HS256.
  destruct (member header "alg") as [| | b | n | s | items | fields | name];
    try reflexivity.
  do 6 (try (destruct s as [| [[] [] [] [] [] [] [] []] s]; try reflexivity)).
Qed.

Lemma exchange_path self params data r :
  oauth_create (oauth self) params data = Resolved r ->
  Path self data r (exchange self params data).
Proof. intros H. unfold createAndValidate. rewrite H. apply respond_path. Qed.

Lemma validated_resolved r token options v :
  validated r token options = Resolved v ->
  v = r /\ validateIdToken token options = None.
Proof.
  unfold validated. destruct (validateIdToken token options); [discriminate |].
  intros [= <-]. split; reflexivity.
Qed.

(** X9.  When the wrapped authenticator's [create] rejects, [create] rejects
    with the same error and neither the verifier nor the validator is called:
    the promise form returns the rejected promise, the callback form calls
    back once with the error. *)
Theorem exchange_rejection_passes_through self params data e :
  oauth_create (oauth self) params data = Rejected e ->
  (forall cb, truthy cb = false ->
     call self params data cb =
       {| returned := ReturnsPromise (Rejected e); callback_calls := []; events := [] |}) /\
  (forall name,
     call self params data (JsFun name) =
       {| returned := ReturnsUndefined; callback_calls := [CbFailure e]; events := [] |}).
Proof.
  intros Hexchange.
  assert (Hrun : exchange self params data = (Rejected e, [])).
  { unfold createAndValidate. rewrite Hexchange. reflexivity. }
  split.
  - intros cb Hcb. rewrite (create_no_callback _ _ _ _ _ _ _ _ _ _ Hcb), Hrun. reflexivity.
  - intros name. rewrite create_with_function, Hrun. reflexivity.
Qed.

(** X10.  Whenever the exchange-and-validate chain resolves, it resolves with
    the very response the wrapped authenticator resolved with: the response
    is never altered or replaced. *)
Theorem resolves_only_with_exchange_response self params data v :
  fst (exchange self params data) = Resolved v ->
  oauth_create (oauth self) params data = Resolved v.
Proof.
  intros Hres.
  destruct (oauth_create (oauth self) params data) as [r | e] eqn:Hexchange.
  - pose proof (exchange_path _ _ _ _ Hexchange) as Hpath.
    destruct Hpath; simpl in Hres; try discriminate;
      try (injection Hres as <-; reflexivity);
      apply validated_resolved in Hres as [-> _]; reflexivity.
  - unfold createAndValidate in Hres. rewrite Hexchange in Hres. discriminate.
Qed.

(** X11.  When validation is not bypassed, a response with an identity token
    is delivered only after [jwt.verify] reported no error, or the
    missing-client-secret one, and the claims validator accepted the token
    under the same options. *)
Theorem delivery_requires_validation self params data v token :
  fst (exchange self params data) = Resolved v ->
  truthy (__bypassIdTokenValidation self) = false ->
  get_member v "id_token" = Normal token ->
  truthy token = true ->
  exists options,
    verification_options self data = Normal options /\
    (jwt_verify token (key_of self) options = Normal None \/
     exists w, jwt_verify token (key_of self) options = Normal (Some w) /\
               hs256_secret_missing w = true) /\
    validateIdToken token options = None /\
    In (Verified token options) (snd (exchange self params data)) /\
    In (Validated token options) (snd (exchange self params data)).
Proof.
  intros Hres Hbypass Htoken Htruthy.
  destruct (oauth_create (oauth self) params data) as [r | e] eqn:Hexchange.
  2:{ unfold createAndValidate in Hres. rewrite Hexchange in Hres. discriminate. }
  pose proof (exchange_path _ _ _ _ Hexchange) as Hpath.
  destruct Hpath as [Hb | e Hb Ht | t Hb Ht Hf | t e Hb Ht Htr Ho
                     | t options Hb Ht Htr Ho Hv | t options err Hb Ht Htr Ho Hv Hw
                     | t options err Hb Ht Htr Ho Hv Hw
                     | t options thrown Hb Ht Htr Ho Hv];
    simpl in Hres; try discriminate; try congruence.
  - apply validated_resolved in Hres as [-> Hvalid].
    assert (t = token) as -> by congruence.
    exists options. simpl. auto 10.
  - apply validated_resolved in Hres as [-> Hvalid].
    assert (t = token) as -> by congruence.
    exists options. simpl. repeat split; eauto 10.
Qed.

(** X12.  The verifier is called at most once, the validator at most once
    and only after the verifier, with the same token and the same options,
    and a warning is logged only between the two; a verifier call that is
    followed by nothing is a rejection with the verifier's error, the one it
    called back with (which then does not carry the HS256 text) or the one
    it threw. *)
Theorem verification_trace_shape self params data :
  snd (exchange self params data) = [] \/
  exists r token options,
    oauth_create (oauth self) params data = Resolved r /\
    verification_options self data = Normal options /\
    let settled :=
      match validateIdToken token options with
      | Some idTokenError => Rejected idTokenError
      | None => Resolved r
      end in
    (exchange self params data =
       (settled, [Verified token options; Validated token options])
     \/
     exchange self params data =
       (settled,
        [Verified token options; Warned HS256_IGNORE_VALIDATION_MESSAGE;
         Validated token options])
     \/
     exists err,
       (jwt_verify token (key_of self) options = Normal (Some err) /\
        hs256_secret_missing err = false \/
        jwt_verify token (key_of self) options = Throw err) /\
       exchange self params data = (Rejected err, [Verified token options])).
Proof.
  destruct (oauth_create (oauth self) params data) as [r | e] eqn:Hexchange.
  2:{ left. unfold createAndValidate. rewrite Hexchange. reflexivity. }
  pose proof (exchange_path _ _ _ _ Hexchange) as Hpath.
  destruct Hpath as [Hb | e Hb Ht | t Hb Ht Hf | t e Hb Ht Htr Ho
                     | t options Hb Ht Htr Ho Hv | t options err Hb Ht Htr Ho Hv Hw
                     | t options err Hb Ht Htr Ho Hv Hw
                     | t options thrown Hb Ht Htr Ho Hv];
    try (left; reflexivity); right; exists r, t, options;
    (split; [reflexivity |]); (split; [exact Ho |]); cbv zeta.
  - left. reflexivity.
  - right. left. reflexivity.
  - right. right. exists err. split; [left; split; assumption | reflexivity].
  - right. right. exists thrown. split; [right; exact Hv | reflexivity].
Qed.

(** X13.  Without the bypass flag, a response that is [null] or [undefined],
    or request data that is [null] or [undefined] when the response has an
    identity token, makes the call reject with a [TypeError], before any call
    to the verifier or the validator. *)
Theorem nullish_inputs_reject self params data r :
  oauth_create (oauth self) params data = Resolved r ->
  truthy (__bypassIdTokenValidation self) = false ->
  (r = JsUndefined \/ r = JsNull) \/
  ((data = JsUndefined \/ data = JsNull) /\ truthy (member r "id_token") = true) ->
  exists e, err_kind e = TypeError /\ exchange self params data = (Rejected e, []).
Proof.
  intros Hexchange Hbypass Hnullish.
  unfold createAndValidate, validate_response. rewrite Hexchange, Hbypass.
  destruct Hnullish as [[-> | ->] | [Hdata Htoken]].
  - simpl. eexists. split; [| reflexivity]. reflexivity.
  - simpl. eexists. split; [| reflexivity]. reflexivity.
  - assert (Hread : get_member r "id_token" = Normal (member r "id_token")).
    { destruct r; simpl in Htoken; try discriminate; reflexivity. }
    rewrite Hread, Htoken.
    destruct Hdata as [-> | ->]; simpl; eexists; (split; [| reflexivity]); reflexivity.
Qed.

(** X14.  The key callback hands out the client secret only for a header
    whose [alg] is [HS256], and then without consulting the JWKS client: for
    such a header it calls back with the missing-secret error when no secret
    is configured, and otherwise with the secret when [Buffer.from] takes
    it, throwing what [Buffer.from] throws when it does not.  For every
    other header an error of the JWKS client is handed on as it is, and a
    key that is [null] or [undefined] makes the callback throw a
    [TypeError]. *)
Theorem client_secret_only_for_HS256 self header :
  (forall secret, key_of self header = Normal (inr (SecretBuffer secret)) ->
     member header "alg" = JsStr "HS256" /\
     secret = clientSecret self /\ truthy secret = true /\
     Buffer_from_throws secret = None) /\
  (member header "alg" = JsStr "HS256" ->
     key_of self header =
       if truthy (clientSecret self) then
         match Buffer_from_throws (clientSecret self) with
         | Some thrown => Throw thrown
         | None => Normal (inr (SecretBuffer (clientSecret self)))
         end
       else Normal (inl (mkError PlainObject HS256_IGNORE_VALIDATION_MESSAGE))) /\
  (member header "alg" <> JsStr "HS256" ->
     (forall e, getSigningKey (_jwksClient self) (member header "kid") = inl e ->
                key_of self header = Normal (inl e)) /\
     (forall key, getSigningKey (_jwksClient self) (member header "kid") = inr key ->
                  key = JsUndefined \/ key = JsNull ->
                  exists thrown,
                    err_kind thrown = TypeError /\ key_of self header = Throw thrown)).
Proof.
  rewrite getKey_by_alg.
  destruct (is_HS256 (member header "alg")) eqn:Halg.
  - apply is_HS256_iff in Halg. split; [| split].
    + intros secret Hkey.
      destruct (truthy (clientSecret self)) eqn:Hs; cbn [negb] in Hkey;
        [| discriminate].
      destruct (Buffer_from_throws (clientSecret self)) eqn:Hb; [discriminate |].
      injection Hkey as <-. auto.
    + intros _. destruct (truthy (clientSecret self)); reflexivity.
    + intros Hne. contradiction.
  - assert (Hne : member header "alg" <> JsStr "HS256").
    { intros Heq. apply is_HS256_iff in Heq. congruence. }
    split; [| split].
    + intros secret Hkey. exfalso.
      destruct (getSigningKey (_jwksClient self) (member header "kid")) as [e | key];
        [discriminate |].
      destruct (get_member key "publicKey") as [pk |]; cbn [bind] in Hkey;
        [| discriminate].
      destruct (truthy pk); [discriminate |].
      destruct (get_member key "rsaPublicKey"); cbn [bind] in Hkey; discriminate.
    + intros Heq. contradiction.
    + intros _. split.
      * intros e ->. reflexivity.
      * intros key -> [-> | ->]; eexists; (split; [| reflexivity]); reflexivity.
Qed.

(** X15.  With a function as callback, [create] returns [undefined] and the
    callback invocations are exactly these: when the chain rejects, one,
    with the error; when it resolves and the callback returns normally, one,
    with the response; when it resolves and the callback throws on that
    call, two, the second with what the callback threw.  With a truthy
    callback that is not a function nothing is reported at all. *)
Theorem callback_invocations self params data :
  (forall name,
     returned (call self params data (JsFun name)) = ReturnsUndefined /\
     callback_calls (call self params data (JsFun name)) =
       match fst (exchange self params data) with
       | Rejected e => [CbFailure e]
       | Resolved r =>
           match run_callback name (CbSuccess r) with
           | None => [CbSuccess r]
           | Some thrown => [CbSuccess r; CbFailure thrown]
           end
       end) /\
  (forall cb, truthy cb = true -> instanceof_Function cb = false ->
     returned (call self params data cb) = ReturnsUndefined /\
     callback_calls (call self params data cb) = []).
Proof.
  split.
  - intros name. rewrite create_with_function. split; [reflexivity |].
    cbn [callback_calls].
    destruct (fst (exchange self params data)) as [r | e]; simpl; [| reflexivity].
    destruct (run_callback name (CbSuccess r)); reflexivity.
  - intros cb Htruthy Hfun. unfold create.
    destruct (exchange self params data) as [p evs]. rewrite Htruthy. simpl.
    split; [reflexivity |].
    destruct cb; try discriminate; destruct p; reflexivity.
Qed.

(** X16.  The JWKS client of a constructed instance is pointed below the
    issuer that its verifications expect: the key set URL is the issuer
    followed by [.well-known/jwks.json]. *)
Theorem jwks_uri_extends_issuer oauth0 options self data opts :
  construct oauth0 options = Normal self ->
  verification_options self data = Normal opts ->
  jwksUri (_jwksClient self) = issuer opts +:+ ".well-known/jwks.json".
Proof.
  intros Hnew Hopts.
  destruct (construct_fields _ _ _ Hnew) as (_ & _ & Hdom & _ & Huri).
  destruct (verification_options_fields _ _ _ Hopts) as (_ & _ & Hissuer & _).
  rewrite Huri, Hissuer, Hdom, !append_assoc. reflexivity.
Qed.

(** X17.  Whether a [jwt.verify] error is downgraded to a warning is decided
    by its message alone: any error whose message contains the HS256 text is
    logged and followed by the claims validator, whose outcome settles the
    call, whatever the token's algorithm and whether or not a client secret
    is configured; and the error [jsonwebtoken] builds from a key callback
    error carrying that text is such an error. *)
Theorem downgrade_by_message_alone self params data r token options err :
  oauth_create (oauth self) params data = Resolved r ->
  truthy (__bypassIdTokenValidation self) = false ->
  get_member r "id_token" = Normal token ->
  truthy token = true ->
  verification_options self data = Normal options ->
  jwt_verify token (key_of self) options = Normal (Some err) ->
  includes (err_message err) HS256_IGNORE_VALIDATION_MESSAGE = true ->
  exchange self params data =
    (match validateIdToken token options with
     | Some idTokenError => Rejected idTokenError
     | None => Resolved r
     end,
     [Verified token options; Warned HS256_IGNORE_VALIDATION_MESSAGE;
      Validated token options]) /\
  forall e, includes (err_message e) HS256_IGNORE_VALIDATION_MESSAGE = true ->
            hs256_secret_missing (key_callback_error e) = true.
Proof.
  intros Hexchange Hbypass Htoken Htruthy Hoptions Hverify Hmsg. split.
  - unfold createAndValidate. rewrite Hexchange.
    rewrite (validate_response_verifying _ _ _ _ _ _ _ _ _ Hbypass Htoken Htruthy Hoptions).
    rewrite Hverify, hs256_secret_missing_includes, Hmsg. reflexivity.
  - intros e He. rewrite hs256_secret_missing_includes.
    apply includes_append_l. exact He.
Qed.

(** X18.  An instance constructed with a truthy [__bypassIdTokenValidation]
    hands on the outcome of the authenticator it was constructed with, as it
    is, for every request: no token is looked at and neither the verifier
    nor the validator is ever called. *)
Theorem bypassing_instance_is_transparent oauth0 options self params data :
  construct oauth0 options = Normal self ->
  truthy (member options "__bypassIdTokenValidation") = true ->
  exchange self params data = (oauth_create oauth0 params data, []).
Proof.
  intros Hnew Hbypass.
  assert (Hfields : oauth self = oauth0 /\
                    __bypassIdTokenValidation self =
                      member options "__bypassIdTokenValidation").
  { revert Hnew. unfold construct.
    destruct (negb (truthy oauth0)); [discriminate |].
    destruct (negb (truthy options)); [discriminate |].
    destruct (negb (String.eqb (typeof options) "object")); [discriminate |].
    destruct (call_factory _ _); simpl; [| discriminate].
    intros [= <-]. split; reflexivity. }
  destruct Hfields as [Hoauth Hflag].
  unfold createAndValidate, validate_response. rewrite Hoauth, Hflag, Hbypass.
  destruct (oauth_create oauth0 params data); reflexivity.
Qed.

End Facts.

(** X19.  The constructor succeeds exactly when the authenticator is truthy,
    the options are a truthy value of type object and the JWKS factory, the
    injected one or else the default, is a function; the authenticator is
    checked first, then the presence of the options, then their type. *)
Theorem construct_outcome (oauth0 options : JsVal) :
  ((exists self, construct oauth0 options = Normal self) <->
   truthy oauth0 = true /\ truthy options = true /\ typeof options = "object" /\
   instanceof_Function (js_or (member options "jwksClient") jwksClient) = true) /\
  (truthy oauth0 = false ->
   construct oauth0 options =
     Throw (mkError ArgumentError "Missing OAuthAuthenticator param")) /\
  (truthy oauth0 = true -> truthy options = false ->
   construct oauth0 options =
     Throw (mkError ArgumentError "Missing authenticator options")) /\
  (truthy oauth0 = true -> truthy options = true -> typeof options <> "object" ->
   construct oauth0 options =
     Throw (mkError ArgumentError "The authenticator options must be an object")).
Proof.
  split; [| split; [| split]].
  - split.
    + intros [self H]. unfold construct, call_factory in H.
      destruct (truthy oauth0); cbn [negb] in H; [| discriminate].
      destruct (truthy options); cbn [negb] in H; [| discriminate].
      destruct (String.eqb_spec (typeof options) "object");
        cbn [negb] in H; [| discriminate].
      destruct (instanceof_Function (js_or (member options "jwksClient") jwksClient));
        [| discriminate].
      auto.
    + intros (H1 & H2 & H3 & H4). unfold construct, call_factory.
      rewrite H1, H2, H3, H4. eexists. reflexivity.
  - intros H. unfold construct. rewrite H. reflexivity.
  - intros H1 H2. unfold construct. rewrite H1, H2. reflexivity.
  - intros H1 H2 H3. unfold construct. rewrite H1, H2. cbn [negb].
    destruct (String.eqb_spec (typeof options) "object"); [contradiction | reflexivity].
Qed.

(** *** The properties on the test doubles *)

Local Abbreviation stub_exchange :=
  (createAndValidate Doubles.getSigningKey Doubles.Buffer_from_throws Doubles.jwt_verify
           Doubles.validateIdToken
     Doubles.oauth_create).
Local Abbreviation stub_call :=
  (create Doubles.getSigningKey Doubles.Buffer_from_throws Doubles.jwt_verify
           Doubles.validateIdToken
     Doubles.oauth_create Doubles.run_callback).

Lemma exchange_rejection_passes_through_witness :
  let self := Doubles.instance_without_secret JsUndefined in
  let failure := mkError (OtherError "Error") "Request failed" in
  (forall cb, truthy cb = false ->
     stub_call self JsUndefined (JsObj []) cb =
       {| returned := ReturnsPromise (Rejected failure);
          callback_calls := []; events := [] |}) /\
  (forall name,
     stub_call self JsUndefined (JsObj []) (JsFun name) =
       {| returned := ReturnsUndefined;
          callback_calls := [CbFailure failure]; events := [] |}).
Proof.
  intros self failure.
  apply (exchange_rejection_passes_through
           Doubles.getSigningKey Doubles.Buffer_from_throws Doubles.jwt_verify
           Doubles.validateIdToken
           Doubles.oauth_create Doubles.run_callback self JsUndefined (JsObj []) failure).
  reflexivity.
Defined.

Lemma resolves_only_with_exchange_response_witness :
  let r := Doubles.id_token_response "RS256.ok.sig" in
  Doubles.oauth_create (oauth (Doubles.instance_without_secret r)) JsUndefined (JsObj []) =
    Resolved r.
Proof.
  intros r.
  apply (resolves_only_with_exchange_response
           Doubles.getSigningKey Doubles.Buffer_from_throws Doubles.jwt_verify
           Doubles.validateIdToken
           Doubles.oauth_create (Doubles.instance_without_secret r) JsUndefined (JsObj []) r).
  reflexivity.
Defined.

Lemma delivery_requires_validation_witness :
  let r := Doubles.id_token_response "RS256.ok.sig" in
  let self := Doubles.instance_without_secret r in
  exists options,
    verification_options self (JsObj []) = Normal options /\
    (Doubles.jwt_verify (JsStr "RS256.ok.sig")
       (getKey Doubles.getSigningKey Doubles.Buffer_from_throws self) options
       = Normal None \/
     exists w,
       Doubles.jwt_verify (JsStr "RS256.ok.sig")
         (getKey Doubles.getSigningKey Doubles.Buffer_from_throws self) options
         = Normal (Some w) /\
       hs256_secret_missing w = true) /\
    Doubles.validateIdToken (JsStr "RS256.ok.sig") options = None /\
    In (Verified (JsStr "RS256.ok.sig") options)
       (snd (stub_exchange self JsUndefined (JsObj []))) /\
    In (Validated (JsStr "RS256.ok.sig") options)
       (snd (stub_exchange self JsUndefined (JsObj []))).
Proof.
  intros r self.
  apply (delivery_requires_validation
           Doubles.getSigningKey Doubles.Buffer_from_throws Doubles.jwt_verify
           Doubles.validateIdToken
           Doubles.oauth_create self JsUndefined (JsObj []) r (JsStr "RS256.ok.sig"));
    reflexivity.
Defined.

Lemma nullish_inputs_reject_witness :
  let r := Doubles.id_token_response "RS256.ok.sig" in
  exists e,
    err_kind e = TypeError /\
    stub_exchange (Doubles.instance_without_secret r) JsUndefined JsUndefined =
      (Rejected e, []).
Proof.
  intros r.
  apply (nullish_inputs_reject
           Doubles.getSigningKey Doubles.Buffer_from_throws Doubles.jwt_verify
           Doubles.validateIdToken
           Doubles.oauth_create (Doubles.instance_without_secret r)
           JsUndefined JsUndefined r).
  - reflexivity.
  - reflexivity.
  - right. split; [left |]; reflexivity.
Defined.

Lemma jwks_uri_extends_issuer_witness :
  jwksUri (_jwksClient (Doubles.instance_without_secret JsUndefined)) =
    issuer Doubles.plain_options +:+ ".well-known/jwks.json".
Proof.
  apply (jwks_uri_extends_issuer (Doubles.authenticator JsUndefined)
           Doubles.options_without_secret
           (Doubles.instance_without_secret JsUndefined) (JsObj [])
           Doubles.plain_options);
    reflexivity.
Defined.

(** An RS256 token whose key cannot be fetched, the JWKS client failing with
    the HS256 text: a warning, then the response. *)
Lemma downgrade_by_message_alone_witness :
  let r := Doubles.id_token_response "RS256.ok.sig" in
  createAndValidate misleading_jwks Doubles.Buffer_from_throws Doubles.jwt_verify
    Doubles.validateIdToken Doubles.oauth_create
    (Doubles.instance_without_secret r) JsUndefined (JsObj []) =
    (Resolved r,
     [Verified (JsStr "RS256.ok.sig") Doubles.plain_options;
      Warned HS256_IGNORE_VALIDATION_MESSAGE;
      Validated (JsStr "RS256.ok.sig") Doubles.plain_options]).
Proof.
  intros r.
  destruct (downgrade_by_message_alone
              misleading_jwks Doubles.Buffer_from_throws Doubles.jwt_verify
              Doubles.validateIdToken
              Doubles.oauth_create (Doubles.instance_without_secret r)
              JsUndefined (JsObj []) r (JsStr "RS256.ok.sig") Doubles.plain_options
              (key_callback_error
                 (mkError (OtherError "Error") HS256_IGNORE_VALIDATION_MESSAGE))
              eq_refl eq_refl eq_refl eq_refl eq_refl eq_refl eq_refl)
    as [Hrun _].
  exact Hrun.
Defined.

Lemma bypassing_instance_is_transparent_witness :
  let r := Doubles.id_token_response "RS256.ok.forged" in
  let self :=
    {| oauth := Doubles.authenticator r;
       __bypassIdTokenValidation := JsBool true;
       clientId := JsUndefined;
       clientSecret := JsUndefined;
       domain := JsStr "tenant.auth0.com";
       supportedAlgorithms := DEFAULT_ALGORITHMS;
       _jwksClient :=
         mkJwksClient jwksClient "https://tenant.auth0.com/.well-known/jwks.json" |} in
  stub_exchange self JsUndefined JsUndefined = (Resolved r, []).
Proof.
  intros r self.
  apply (bypassing_instance_is_transparent
           Doubles.getSigningKey Doubles.Buffer_from_throws Doubles.jwt_verify
           Doubles.validateIdToken
           Doubles.oauth_create (Doubles.authenticator r)
           (JsObj [("domain", JsStr "tenant.auth0.com");
                   ("__bypassIdTokenValidation", JsBool true)])
           self JsUndefined JsUndefined);
    reflexivity.
Defined.

End ExchangeValidation.
